(** * Tithing-Api: the transaction pipeline of [src/app/main.py]

    A shallow embedding of the row loop of the [/tithing] endpoint and of
    the helpers it calls ([parse_decimal], [parse_date], [compute_tithe],
    [iter_csv_rows]), together with the parts of Python's [decimal] and
    [datetime] modules they rely on.

    Texts are modelled as Rocq strings over ASCII: [str.strip], [str.lower],
    [Decimal(...)] and [strptime] are modelled on code points below 128,
    where the model is exact.  [csv.reader] over the decoded upload is a
    parameter of the development ([csv_rows] below). *)

From Stdlib Require Import ZArith String Ascii List Bool Lia.
From Stdlib Require Import Sorted.
Import ListNotations.

Local Open Scope string_scope.
Local Open Scope Z_scope.

(** ** Python exceptions and a small error monad *)

(** The [detail] texts of the [HTTPException]s raised by the code. *)
Inductive detail :=
| InvalidAmountValue (s : string)   (* f"Invalid amount value: {s!r}" *)
| InvalidDateValue (s : string)     (* f"Invalid date value (expected MM/DD/YYYY): {s!r}" *)
| DatesFormat                       (* "Dates must be in YYYY-MM-DD format" *)
| EndBeforeStart                    (* "end must be on/after start" *)
| EmptyUpload.                      (* "Empty upload" *)

Inductive exn :=
| HTTPException (status_code : Z) (d : detail)
| InvalidOperation          (* decimal.InvalidOperation *)
| Overflow                  (* decimal.Overflow *)
| ValueError.               (* raised by strptime *)

Inductive res (A : Type) : Type :=
| Ok (a : A)
| Raise (e : exn).
Arguments Ok {A} a.
Arguments Raise {A} e.

Definition bind {A B} (m : res A) (k : A -> res B) : res B :=
  match m with Ok a => k a | Raise e => Raise e end.

Notation "x <- m ;; k" := (bind m (fun x => k))
  (at level 61, m at next level, right associativity).

(** ** Python string methods on ASCII text *)

Module PyStr.

(** [str.isspace] on ASCII: \t \n \v \f \r, the separators \x1c-\x1f, and space. *)
Definition isspace (c : ascii) : bool :=
  let n := nat_of_ascii c in
  ((9 <=? n) && (n <=? 13))%nat || ((28 <=? n) && (n <=? 32))%nat.

Definition isdigit (c : ascii) : bool :=
  let n := nat_of_ascii c in ((48 <=? n) && (n <=? 57))%nat.

Definition digit_val (c : ascii) : Z := Z.of_nat (nat_of_ascii c) - 48.

Fixpoint lstrip (s : string) : string :=
  match s with
  | EmptyString => EmptyString
  | String c s' => if isspace c then lstrip s' else s
  end.

Fixpoint rstrip (s : string) : string :=
  match s with
  | EmptyString => EmptyString
  | String c s' =>
      let r := rstrip s' in
      match r with
      | EmptyString => if isspace c then EmptyString else String c EmptyString
      | _ => String c r
      end
  end.

(** [s.strip()] *)
Definition strip (s : string) : string := rstrip (lstrip s).

Definition lower_char (c : ascii) : ascii :=
  let n := nat_of_ascii c in
  if ((65 <=? n) && (n <=? 90))%nat then ascii_of_nat (n + 32) else c.

(** [s.lower()] *)
Fixpoint lower (s : string) : string :=
  match s with
  | EmptyString => EmptyString
  | String c s' => String (lower_char c) (lower s')
  end.

(** [s.replace(c, "")] for a one-character [c] *)
Fixpoint remove_char (c : ascii) (s : string) : string :=
  match s with
  | EmptyString => EmptyString
  | String d s' => if Ascii.eqb c d then remove_char c s' else String d (remove_char c s')
  end.

(** [s.startswith(p)] *)
Fixpoint startswith (s p : string) : bool :=
  match p, s with
  | EmptyString, _ => true
  | String a p', String b s' => Ascii.eqb a b && startswith s' p'
  | String _ _, EmptyString => false
  end.

(** [needle in hay] *)
Fixpoint contains (hay needle : string) : bool :=
  startswith hay needle ||
  match hay with
  | EmptyString => false
  | String _ h => contains h needle
  end.

Fixpoint span_digits (s : string) : string * string :=
  match s with
  | String c s' =>
      if isdigit c then let '(d, r) := span_digits s' in (String c d, r)
      else (EmptyString, s)
  | EmptyString => (EmptyString, EmptyString)
  end.

Fixpoint all_digits (s : string) : bool :=
  match s with
  | EmptyString => true
  | String c s' => isdigit c && all_digits s'
  end.

(** [int(s)] of a string of ASCII digits *)
Fixpoint digits_value_acc (acc : Z) (s : string) : Z :=
  match s with
  | EmptyString => acc
  | String c s' => digits_value_acc (10 * acc + digit_val c) s'
  end.

Definition digits_value (s : string) : Z := digits_value_acc 0 s.

(** Decimal rendering of a natural number, as [str(n)] prints it. *)
Fixpoint show_nat_aux (fuel : nat) (n : Z) (acc : string) : string :=
  match fuel with
  | O => acc
  | S f =>
      let acc' := String (ascii_of_nat (Z.to_nat (48 + n mod 10))) acc in
      if n <? 10 then acc' else show_nat_aux f (n / 10) acc'
  end.

Definition show_nat (n : Z) : string :=
  show_nat_aux (S (Z.to_nat (Z.log2 n))) n EmptyString.

(** [f"{n:0{w}d}"] for a natural number [n] *)
Definition zero_pad (w : nat) (s : string) : string :=
  append (String.concat "" (repeat "0" (w - String.length s))) s.

End PyStr.

(** ** Python's [decimal] module in its default context

    [getcontext()] is never changed by the code, so every operation runs in
    the default context: precision 28, [ROUND_HALF_EVEN], Emax 999999,
    Emin -999999, clamp 0, traps [InvalidOperation], [DivisionByZero],
    [Overflow]. *)

Module Dec.

(** A finite [Decimal] is [(-1)^sign * coef * 10^exp] with [coef >= 0];
    the sign of zero is kept, as Python keeps it.  NaN payloads and signs
    are not observed by the code and are not kept. *)
Inductive dec :=
| Fin (sign : bool) (coef : Z) (exp : Z)
| Inf (sign : bool)
| NaN (signaling : bool).

Definition prec : Z := 28.
Definition emax : Z := 999999.
Definition emin : Z := -999999.
Definition etiny : Z := emin - prec + 1.
Definition etop : Z := emax - prec + 1.

(** [len(str(c))] for [c >= 0]. *)
Fixpoint ndigits_aux (fuel : nat) (c : Z) : Z :=
  match fuel with
  | O => 0
  | S f => if c <? 10 then 1 else 1 + ndigits_aux f (c / 10)
  end.

Definition ndigits (c : Z) : Z := ndigits_aux (S (Z.to_nat (Z.log2 c))) c.

Inductive rounding := ROUND_HALF_UP | ROUND_HALF_EVEN.

(** Drop the last [k >= 1] digits of [c >= 0], rounding the magnitude. *)
Definition round_digits (rnd : rounding) (c k : Z) : Z :=
  let p := 10 ^ k in
  let q := c / p in
  let r := c mod p in
  match rnd with
  | ROUND_HALF_UP => if p <=? 2 * r then q + 1 else q
  | ROUND_HALF_EVEN => if (p <? 2 * r) || ((2 * r =? p) && Z.odd q) then q + 1 else q
  end.

(** [_rescale(t, rnd)]: the coefficient of the number [c * 10^e] brought
    to exponent [t]. *)
Definition rescale (rnd : rounding) (c e t : Z) : Z :=
  if t <=? e then c * 10 ^ (e - t) else round_digits rnd c (t - e).

(** [_fix(context)]: bring an exact result into the context, rounding
    half-even to 28 digits, and raising [Overflow] above Emax. *)
Definition dec_fix (s : bool) (c e : Z) : res dec :=
  if c =? 0 then Ok (Fin s 0 (Z.min (Z.max e etiny) emax))
  else
    let exp_min := ndigits c + e - prec in
    if etop <? exp_min then Raise Overflow
    else
      let exp_min := Z.max exp_min etiny in
      if e <? exp_min then
        let coeff := round_digits ROUND_HALF_EVEN c (exp_min - e) in
        let '(coeff, exp_min) :=
          if prec <? ndigits coeff then (coeff / 10, exp_min + 1) else (coeff, exp_min) in
        if etop <? exp_min then Raise Overflow else Ok (Fin s coeff exp_min)
      else Ok (Fin s c e).

Definition signed (s : bool) (c : Z) : Z := if s then - c else c.

(** [_normalize(op1, op2, prec)]: both coefficients brought to one
    exponent; an operand lying entirely below the other's precision is
    replaced by a sticky digit.  Returns [(op1.int, op2.int, exp)]. *)
Definition normalize (c1 e1 c2 e2 : Z) : Z * Z * Z :=
  if e1 <? e2 then
    let exp := e2 + Z.min (-1) (ndigits c2 - prec - 2) in
    let '(oc, oe) := if ndigits c1 + e1 - 1 <? exp then (1, exp) else (c1, e1) in
    (oc, c2 * 10 ^ (e2 - oe), oe)
  else
    let exp := e1 + Z.min (-1) (ndigits c1 - prec - 2) in
    let '(oc, oe) := if ndigits c2 + e2 - 1 <? exp then (1, exp) else (c2, e2) in
    (c1 * 10 ^ (e1 - oe), oc, oe).

(** [a + b], following [Decimal.__add__] (the rounding is never
    [ROUND_FLOOR], so [negativezero] is 0). *)
Definition add (a b : dec) : res dec :=
  match a, b with
  | NaN true, _ | _, NaN true => Raise InvalidOperation
  | NaN false, _ | _, NaN false => Ok (NaN false)
  | Inf s1, Inf s2 => if Bool.eqb s1 s2 then Ok (Inf s1) else Raise InvalidOperation
  | Inf s, Fin _ _ _ | Fin _ _ _, Inf s => Ok (Inf s)
  | Fin s1 c1 e1, Fin s2 c2 e2 =>
      let exp := Z.min e1 e2 in
      if (c1 =? 0) && (c2 =? 0) then dec_fix (s1 && s2) 0 exp
      else if c1 =? 0 then
        let exp := Z.max exp (e2 - prec - 1) in
        dec_fix s2 (rescale ROUND_HALF_EVEN c2 e2 exp) exp
      else if c2 =? 0 then
        let exp := Z.max exp (e1 - prec - 1) in
        dec_fix s1 (rescale ROUND_HALF_EVEN c1 e1 exp) exp
      else
        let '(i1, i2, x) := normalize c1 e1 c2 e2 in
        if Bool.eqb s1 s2 then dec_fix s1 (i1 + i2) x
        else if i1 =? i2 then dec_fix false 0 exp
        else if i1 <? i2 then dec_fix s2 (i2 - i1) x
        else dec_fix s1 (i1 - i2) x
  end.

(** [a * b] *)
Definition mul (a b : dec) : res dec :=
  match a, b with
  | NaN true, _ | _, NaN true => Raise InvalidOperation
  | NaN false, _ | _, NaN false => Ok (NaN false)
  | Inf s1, Inf s2 => Ok (Inf (xorb s1 s2))
  | Inf s1, Fin s2 c _ | Fin s2 c _, Inf s1 =>
      if c =? 0 then Raise InvalidOperation else Ok (Inf (xorb s1 s2))
  | Fin s1 c1 e1, Fin s2 c2 e2 => dec_fix (xorb s1 s2) (c1 * c2) (e1 + e2)
  end.

(** [a.quantize(Decimal("0.01"), rounding=rnd)] *)
Definition quantize2 (rnd : rounding) (a : dec) : res dec :=
  match a with
  | NaN true => Raise InvalidOperation
  | NaN false => Ok (NaN false)
  | Inf _ => Raise InvalidOperation
  | Fin s c e =>
      if c =? 0 then dec_fix s 0 (-2)
      else
        let adjusted := ndigits c + e - 1 in
        if emax <? adjusted then Raise InvalidOperation
        else if prec <? adjusted - (-2) + 1 then Raise InvalidOperation
        else
          let q := rescale rnd c e (-2) in
          if emax <? ndigits q + (-2) - 1 then Raise InvalidOperation
          else if prec <? ndigits q then Raise InvalidOperation
          else dec_fix s q (-2)
  end.

(** [a <= 0]: an ordering comparison with a NaN raises [InvalidOperation]. *)
Definition le_zero (a : dec) : res bool :=
  match a with
  | NaN _ => Raise InvalidOperation
  | Inf s => Ok s
  | Fin s c _ => Ok (s || (c =? 0))
  end.

(** [f"{a:.2f}"]: rescaled to two places with the context rounding
    ([ROUND_HALF_EVEN]). *)
Definition show_fixed2 (s : bool) (q : Z) : string :=
  append (if s then "-" else "")
    (append (PyStr.show_nat (q / 100))
       (append "." (PyStr.zero_pad 2 (PyStr.show_nat (q mod 100))))).

Definition format_2f (a : dec) : string :=
  match a with
  | Fin s c e => show_fixed2 s (rescale ROUND_HALF_EVEN c e (-2))
  | Inf s => append (if s then "-" else "") "Infinity"
  | NaN false => "NaN"
  | NaN true => "sNaN"
  end.

(** Exponent limits of the [Decimal(str)] constructor, which converts
    exactly in the maximal context of the C implementation. *)
Definition max_emax : Z := 999999999999999999.
Definition max_etiny : Z := -1999999999999999997.

Definition finite_of_parts (neg : bool) (d1 d2 : string) (ex : Z) : option dec :=
  let c := PyStr.digits_value (append d1 d2) in
  let e := ex - Z.of_nat (String.length d2) in
  if c =? 0 then
    if (max_etiny <=? e) && (e <=? max_emax) then Some (Fin neg 0 e) else None
  else if (max_etiny <=? e) && (ndigits c + e - 1 <=? max_emax) then Some (Fin neg c e)
  else None.

(** [[('e'|'E') [sign] digits]] at the end of the text. *)
Definition parse_exponent (s : string) : option Z :=
  match s with
  | EmptyString => Some 0
  | String e r =>
      if Ascii.eqb e "e" || Ascii.eqb e "E" then
        let '(neg, r') :=
          match r with
          | String "-" r' => (true, r')
          | String "+" r' => (false, r')
          | _ => (false, r)
          end in
        let '(d, rest) := PyStr.span_digits r' in
        match d, rest with
        | String _ _, EmptyString =>
            Some (if neg then - PyStr.digits_value d else PyStr.digits_value d)
        | _, _ => None
        end
      else None
  end.

Definition parse_finite (neg : bool) (s : string) : option dec :=
  let '(d1, r1) := PyStr.span_digits s in
  let '(d2, r2) :=
    match r1 with
    | String "." r => PyStr.span_digits r
    | _ => (EmptyString, r1)
    end in
  match d1, d2 with
  | EmptyString, EmptyString => None
  | _, _ =>
      match parse_exponent r2 with
      | Some ex => finite_of_parts neg d1 d2 ex
      | None => None
      end
  end.

(** [Decimal(s)] of the C implementation: surrounding whitespace stripped,
    underscores ignored, then the numeric-string grammar with
    case-insensitive [Inf], [Infinity], [NaN] and [sNaN].  [None] is a
    [ConversionSyntax], that is an [InvalidOperation]. *)
Definition of_string (s0 : string) : option dec :=
  let s := PyStr.remove_char "_" (PyStr.strip s0) in
  let '(neg, r) :=
    match s with
    | String "-" r => (true, r)
    | String "+" r => (false, r)
    | _ => (false, s)
    end in
  let lr := PyStr.lower r in
  if String.eqb lr "inf" || String.eqb lr "infinity" then Some (Inf neg)
  else if PyStr.startswith lr "nan" && PyStr.all_digits (substring 3 (String.length lr) lr)
  then Some (NaN false)
  else if PyStr.startswith lr "snan" && PyStr.all_digits (substring 4 (String.length lr) lr)
  then Some (NaN true)
  else parse_finite neg r.

Definition zero : dec := Fin false 0 0.

End Dec.

(** ** Calendar dates and [datetime.strptime] *)

Module Date.

Record date := mkdate { year : Z; month : Z; day : Z }.

Definition is_leap (y : Z) : bool :=
  (y mod 4 =? 0) && (negb (y mod 100 =? 0) || (y mod 400 =? 0)).

Definition days_in_month (y m : Z) : Z :=
  if m =? 2 then (if is_leap y then 29 else 28)
  else if (m =? 4) || (m =? 6) || (m =? 9) || (m =? 11) then 30
  else 31.

(** [a <= b] on [datetime.date] *)
Definition le (a b : date) : bool :=
  (year a <? year b)
  || ((year a =? year b) && ((month a <? month b)
                              || ((month a =? month b) && (day a <=? day b)))).

Definition lt (a b : date) : bool := negb (le b a).

(** [d.isoformat()] *)
Definition isoformat (d : date) : string :=
  append (PyStr.zero_pad 4 (PyStr.show_nat (year d)))
    (append "-" (append (PyStr.zero_pad 2 (PyStr.show_nat (month d)))
       (append "-" (PyStr.zero_pad 2 (PyStr.show_nat (day d)))))).

(** The directives used by the code, with the regular expressions of
    [_strptime.TimeRE]:
    %Y [(\d\d\d\d)], %m [(1[0-2]|0[1-9]|[1-9])],
    %d [(3[0-1]|[1-2]\d|0[1-9]|[1-9]| [1-9])]. *)
Inductive directive := DirY | Dirm | Dird.

Inductive fmt_item :=
| Lit (c : ascii)
| Dir (d : directive).

Definition DATE_FMT : list fmt_item := [Dir Dirm; Lit "/"; Dir Dird; Lit "/"; Dir DirY].
Definition ISO_FMT : list fmt_item := [Dir DirY; Lit "-"; Dir Dirm; Lit "-"; Dir Dird].

Definition in_class (lo hi c : ascii) : bool :=
  ((nat_of_ascii lo <=? nat_of_ascii c) && (nat_of_ascii c <=? nat_of_ascii hi))%nat.

(** One character from [lo-hi] after a fixed first character test. *)
Definition alt2 (first : ascii -> bool) (lo hi : ascii) (s : string) : list (Z * string) :=
  match s with
  | String a (String b r) =>
      if first a && in_class lo hi b
      then [(10 * (if Ascii.eqb a " " then 0 else PyStr.digit_val a) + PyStr.digit_val b, r)]
      else []
  | _ => []
  end.

Definition alt1 (lo hi : ascii) (s : string) : list (Z * string) :=
  match s with
  | String a r => if in_class lo hi a then [(PyStr.digit_val a, r)] else []
  | _ => []
  end.

(** The alternatives of a directive's group, in the order the regular
    expression tries them, each with the value [int(group)] and the rest. *)
Definition alts (d : directive) (s : string) : list (Z * string) :=
  match d with
  | DirY =>
      match s with
      | String a (String b (String c (String e r))) =>
          if PyStr.isdigit a && PyStr.isdigit b && PyStr.isdigit c && PyStr.isdigit e
          then [(PyStr.digits_value (String a (String b (String c (String e EmptyString)))), r)]
          else []
      | _ => []
      end
  | Dirm =>
      alt2 (Ascii.eqb "1") "0" "2" s ++ alt2 (Ascii.eqb "0") "1" "9" s ++ alt1 "1" "9" s
  | Dird =>
      alt2 (Ascii.eqb "3") "0" "1" s ++ alt2 (in_class "1" "2") "0" "9" s
      ++ alt2 (Ascii.eqb "0") "1" "9" s ++ alt1 "1" "9" s ++ alt2 (Ascii.eqb " ") "1" "9" s
  end%list.

Fixpoint first_some {A B} (f : A -> option B) (l : list A) : option B :=
  match l with
  | [] => None
  | x :: l' => match f x with Some b => Some b | None => first_some f l' end
  end.

(** [re.match] of the compiled format: backtracking over the alternatives,
    the first successful combination wins. *)
Fixpoint match_fmt (f : list fmt_item) (s : string) (acc : list (directive * Z))
  : option (list (directive * Z) * string) :=
  match f with
  | [] => Some (acc, s)
  | Lit c :: f' =>
      match s with
      | String c' s' => if Ascii.eqb c c' then match_fmt f' s' acc else None
      | EmptyString => None
      end
  | Dir d :: f' => first_some (fun p => match_fmt f' (snd p) ((d, fst p) :: acc)) (alts d s)
  end.

Definition directive_eqb (a b : directive) : bool :=
  match a, b with DirY, DirY | Dirm, Dirm | Dird, Dird => true | _, _ => false end.

Fixpoint lookup_dir (d : directive) (dflt : Z) (acc : list (directive * Z)) : Z :=
  match acc with
  | [] => dflt
  | (d', v) :: acc' => if directive_eqb d d' then v else lookup_dir d dflt acc'
  end.

(** [datetime.strptime(s, fmt).date()]: no match or unconverted data
    remains, or [date(year, month, day)] is out of range: [ValueError]. *)
Definition strptime (s : string) (f : list fmt_item) : res date :=
  match match_fmt f s [] with
  | None => Raise ValueError
  | Some (acc, rest) =>
      match rest with
      | String _ _ => Raise ValueError
      | EmptyString =>
          let y := lookup_dir DirY 1900 acc in
          let m := lookup_dir Dirm 1 acc in
          let d := lookup_dir Dird 1 acc in
          if (1 <=? y) && (y <=? 9999) && (1 <=? m) && (m <=? 12)
             && (1 <=? d) && (d <=? days_in_month y m)
          then Ok (mkdate y m d) else Raise ValueError
      end
  end.

End Date.

(** ** The helpers of [main.py] *)

Import Dec Date.

(** [parse_decimal(s)]; [None] is Python's [None]. *)
Definition parse_decimal (s0 : option string) : res dec :=
  match s0 with
  | None => Ok (Fin false 0 0)
  | Some s0 =>
      let s1 := PyStr.remove_char "," (PyStr.strip s0) in
      let s := match s1 with String "+" r => r | _ => s1 end in
      match of_string s with
      | Some d => Ok d
      | None => Raise (HTTPException 400 (InvalidAmountValue s))
      end
  end.

(** [parse_date(s)]: any exception of [strptime] becomes an HTTPException. *)
Definition parse_date (s : string) : res date :=
  match strptime (PyStr.strip s) DATE_FMT with
  | Ok d => Ok d
  | Raise _ => Raise (HTTPException 400 (InvalidDateValue s))
  end.

(** [compute_tithe(total, rate)] *)
Definition compute_tithe (total rate : dec) : res dec :=
  p <- mul total rate ;; quantize2 ROUND_HALF_UP p.

(** [iter_csv_rows]: the rows of [csv.reader], numbered from 1, blank rows
    dropped, short rows padded to 5 fields. *)
Fixpoint enumerate {A} (n : Z) (l : list A) : list (Z * A) :=
  match l with
  | [] => []
  | x :: l' => (n, x) :: enumerate (n + 1) l'
  end.

Definition pad_row (row : list string) : list string :=
  if (length row <? 5)%nat then (row ++ repeat "" (5 - length row))%list else row.

Definition iter_csv_rows (reader : list (list string)) : list (Z * list string) :=
  flat_map (fun p => match snd p with [] => [] | _ => [(fst p, pad_row (snd p))] end)
    (enumerate 1 reader).

(** [date_str, amount_str, _, _, desc = (row + [""] * 5)[:5]] *)
Definition field (row : list string) (i : nat) : string :=
  nth i (firstn 5 (row ++ repeat "" 5)%list) "".

(** ** The row loop of [tithing] *)

(** One entry of [matches]. *)
Record match_rec := mkmatch {
  m_date : string;          (* txn_date.isoformat() *)
  m_amount : string;        (* f"{amount:.2f}" *)
  m_description : string    (* desc.strip() *)
}.

(** The local state the loop updates: [matches], [total], [errors].  An
    entry of [errors] is the line number and the exception caught; the code
    renders it as [f"Line {line_no}: {he.detail}"] for an HTTPException and
    [f"Line {line_no}: {type(ex).__name__}: {ex}"] otherwise. *)
Record loop_state := mkstate {
  matches : list match_rec;
  total : dec;
  errors : list (Z * exn)
}.

Definition init_state : loop_state := mkstate [] (Fin false 0 0) [].

(** The filter configuration, fixed before the loop. *)
Record config := mkconfig {
  start_date : date;
  end_date : date;
  needle : string;
  case_insensitive : bool
}.

(** The body of the [try] for one row: [Ok None] is a [continue], [Ok (Some
    st')] the state after the body, [Raise e] an exception escaping it. *)
Definition row_body (cfg : config) (st : loop_state) (line_no : Z) (row : list string)
  : res (option loop_state) :=
  let date_str := field row 0 in
  let amount_str := field row 1 in
  let desc := field row 4 in
  match parse_date date_str with
  | Raise e => if line_no =? 1 then Ok None (* likely a header row *) else Raise e
  | Ok txn_date =>
      if negb (Date.le (start_date cfg) txn_date && Date.le txn_date (end_date cfg))
      then Ok None
      else
        amount <- parse_decimal (Some amount_str) ;;
        nonpos <- le_zero amount ;;
        if nonpos then Ok None (* only deposits/credits *)
        else
          let description := PyStr.strip desc in
          let hay := if case_insensitive cfg then PyStr.lower description else description in
          if PyStr.contains hay (needle cfg) then
            total' <- add (total st) amount ;;
            Ok (Some (mkstate
                        (matches st ++ [mkmatch (isoformat txn_date) (format_2f amount) description])%list
                        total' (errors st)))
          else Ok (Some st)
  end.

(** One iteration: [except HTTPException] and [except Exception] both append
    to [errors] and go on with the next row. *)
Definition step (cfg : config) (st : loop_state) (r : Z * list string) : loop_state :=
  let '(line_no, row) := r in
  match row_body cfg st line_no row with
  | Ok None => st
  | Ok (Some st') => st'
  | Raise e => mkstate (matches st) (total st) (errors st ++ [(line_no, e)])%list
  end.

(** [for line_no, row in iter_csv_rows(data): ...] *)
Definition run_loop (cfg : config) (st : loop_state) (rows : list (Z * list string)) : loop_state :=
  fold_left (step cfg) rows st.

(** ** The endpoint *)

Inductive out_format := FmtJson | FmtCsv.

Record json_resp := mkjson {
  f_start : string;
  f_end : string;
  f_desc_contains : string;
  f_case_insensitive : bool;
  count : Z;
  total_deposits : string;
  tithe : string;
  rows : list match_rec;
  errs : list (Z * exn)
}.

Inductive response :=
| JSONResponse (j : json_resp)
| CSVResponse (lines : list (list string)).

(** [Decimal(s)] on a text the code produced itself. *)
Definition decimal_of (s : string) : res dec :=
  match of_string s with Some d => Ok d | None => Raise InvalidOperation end.

Fixpoint map_res {A B} (f : A -> res B) (l : list A) : res (list B) :=
  match l with
  | [] => Ok []
  | x :: l' => y <- f x ;; ys <- map_res f l' ;; Ok (y :: ys)
  end.

(** One line of the CSV report for a match. *)
Definition csv_match_line (rate_dec : dec) (r : match_rec) : res (list string) :=
  amt <- decimal_of (m_amount r) ;;
  per <- compute_tithe amt rate_dec ;;
  Ok [m_date r; format_2f amt; m_description r; format_2f per].

Section Endpoint.

(** [csv.reader(io.StringIO(data.decode("utf-8-sig", errors="replace")))]:
    the standard library's decoding and CSV tokenising, not part of the
    repository. *)
Variable csv_reader : string -> list (list string).

(** [tithing(file, start, end, desc_contains, rate, case_insensitive,
    format)].  The upload is its bytes [data]; [rate_dec] is
    [Decimal(str(rate))] and [rate_pct] is [int(rate*100)], both computed
    from the float [rate] that FastAPI has checked to lie in [0, 1]. *)
Definition tithing (data start end_ desc_contains : string) (rate_dec : dec) (rate_pct : Z)
  (case_ins : bool) (format : out_format) : res response :=
  match strptime start ISO_FMT, strptime end_ ISO_FMT with
  | Raise _, _ | _, Raise _ => Raise (HTTPException 400 DatesFormat)
  | Ok start_date, Ok end_date =>
      if Date.lt end_date start_date then Raise (HTTPException 400 EndBeforeStart)
      else
        match data with
        | EmptyString => Raise (HTTPException 400 EmptyUpload)
        | _ =>
            let needle := if case_ins then PyStr.lower desc_contains else desc_contains in
            let cfg := mkconfig start_date end_date needle case_ins in
            let st := run_loop cfg init_state (iter_csv_rows (csv_reader data)) in
            tithe <- compute_tithe (total st) rate_dec ;;
            match format with
            | FmtCsv =>
                body <- map_res (csv_match_line rate_dec) (matches st) ;;
                Ok (CSVResponse
                      ([["date"; "amount"; "description";
                         append "tithe_" (append (PyStr.show_nat rate_pct) "pct_per_row")]]
                       ++ body ++ [[]] ++ [["TOTAL"; format_2f (total st); ""; format_2f tithe]])%list)
            | FmtJson =>
                Ok (JSONResponse
                      (mkjson (isoformat start_date) (isoformat end_date) desc_contains case_ins
                         (Z.of_nat (length (matches st))) (format_2f (total st))
                         (format_2f tithe) (matches st) (errors st)))
            end
        end
  end.

End Endpoint.

(** ** Readings of the specification, to be compared with the code *)


(** The four filter stages of the row loop on their own (date parses, date
    in range, amount parses and is positive, description contains the
    needle): the record a row yields when it passes them all. *)
Definition passes (cfg : config) (r : Z * list string) : option match_rec :=
  let '(_, row) := r in
  match parse_date (field row 0) with
  | Raise _ => None
  | Ok txn_date =>
      if Date.le (start_date cfg) txn_date && Date.le txn_date (end_date cfg) then
        match parse_decimal (Some (field row 1)) with
        | Ok amount =>
            match le_zero amount with
            | Ok false =>
                let description := PyStr.strip (field row 4) in
                let hay := if case_insensitive cfg then PyStr.lower description else description in
                if PyStr.contains hay (needle cfg)
                then Some (mkmatch (isoformat txn_date) (format_2f amount) description)
                else None
            | _ => None
            end
        | Raise _ => None
        end
      else None
  end.

(** The running total stays a finite number or [+Infinity]: it starts at
    [Decimal("0")] and only positive amounts are added to it. *)
Definition total_ok (d : dec) : Prop :=
  match d with
  | Fin _ _ _ => True
  | Inf false => True
  | _ => False
  end.

(** ** Concrete inputs *)

Definition payroll_row (date amount : string) : list string :=
  [date; amount; "*"; ""; "MILLWORK DEV PAYROLL #123"].

Definition september : config :=
  mkconfig (mkdate 2025 9 1) (mkdate 2025 9 30) (PyStr.lower "MILLWORK DEV PAYROLL") true.

Definition header_row : list string := ["Date"; "Amount"; "Type"; "Category"; "Description"].

(** The rows of the example of the specification, section 8. *)
Definition spec_rows : list (list string) :=
  [header_row;
   ["09/15/2025"; "1500.00"; "*"; ""; "MILLWORK DEV PAYROLL #123"];
   ["09/20/2025"; "-200.00"; "*"; ""; "UNRELATED DEBIT"]].

(** A reader returning fixed rows, whatever the upload. *)
Definition fixed_reader (rows : list (list string)) (_ : string) : list (list string) := rows.

(** Two deposits of [9E+999999] on lines 2 and 3: each amount is a valid
    [Decimal], their sum exceeds [Emax] of the context. *)
Definition huge_rows (date1 date2 : string) : list (Z * list string) :=
  [(2, payroll_row date1 "9E+999999"); (3, payroll_row date2 "9E+999999")].

(** September 2025 with [desc_contains=""]. *)
Definition september_any : config :=
  mkconfig (mkdate 2025 9 1) (mkdate 2025 9 30) (PyStr.lower "") true.

(** The records the loop would append if no addition failed. *)
Definition passing_matches (cfg : config) (rows : list (Z * list string)) : list match_rec :=
  flat_map (fun r => match passes cfg r with Some m => [m] | None => [] end) rows.


(** A total of [0.125], a tie at the third decimal. *)
Definition tie_rows : list (list string) :=
  [header_row; payroll_row "09/15/2025" "0.125"].

(** The CSV report of the example of the specification at rate 0.1. *)
Definition spec_report : list (list string) :=
  [["date"; "amount"; "description"; "tithe_10pct_per_row"];
   ["2025-09-15"; "1500.00"; "MILLWORK DEV PAYROLL #123"; "150.00"];
   [];
   ["TOTAL"; "1500.00"; ""; "150.00"]].

(** Every character of a string satisfies [f]. *)
Fixpoint str_all (f : ascii -> bool) (s : string) : bool :=
  match s with
  | EmptyString => true
  | String c s' => f c && str_all f s'
  end.

(** The characters [f"{x:.2f}"] prints for a finite [x]. *)
Definition fixed_char (c : ascii) : bool :=
  PyStr.isdigit c || Ascii.eqb c "." || Ascii.eqb c "-".

Definition nonspace (c : ascii) : bool := negb (PyStr.isspace c).

(** A date written as in a bank export: [f"{m:02d}/{d:02d}/{y:04d}"] when
    [pad], [f"{m}/{d}/{y:04d}"] otherwise. *)
Definition mdy_string (pad : bool) (y m d : Z) : string :=
  let two n := if pad then PyStr.zero_pad 2 (PyStr.show_nat n) else PyStr.show_nat n in
  append (two m) (append "/" (append (two d) (append "/" (PyStr.zero_pad 4 (PyStr.show_nat y))))).

(** [f"{n:04d}"] is four ASCII digits reading back as [n]. *)
Definition year4_ok (n : nat) : bool :=
  match PyStr.zero_pad 4 (PyStr.show_nat (Z.of_nat n)) with
  | String a (String b (String c (String e EmptyString))) =>
      PyStr.isdigit a && PyStr.isdigit b && PyStr.isdigit c && PyStr.isdigit e
      && (PyStr.digits_value (String a (String b (String c (String e EmptyString)))) =? Z.of_nat n)
  | _ => false
  end.

(** A [Decimal] with sign 0 (finite or infinite): not negative, not NaN. *)
Definition sign_nonneg (d : dec) : bool :=
  match d with
  | Fin s _ _ | Inf s => negb s
  | NaN _ => false
  end.

Local Open Scope list_scope.

(** ** Digit counting *)





(** ** The decimal context on representable values *)







(** ** Lemmas on the row loop *)

Lemma parse_date_error : forall s e, parse_date s = Raise e -> e = HTTPException 400 (InvalidDateValue s).
Proof.
  intros s e H. unfold parse_date in H. destruct (strptime (PyStr.strip s) DATE_FMT); congruence.
Qed.

Lemma parse_decimal_error : forall s e, parse_decimal (Some s) = Raise e ->
  exists t, e = HTTPException 400 (InvalidAmountValue t).
Proof.
  intros s e H. unfold parse_decimal in H.
  destruct (of_string _); [discriminate|]. inversion H. eauto.
Qed.

Lemma run_loop_cons : forall cfg st r rest,
  run_loop cfg st (r :: rest) = run_loop cfg (step cfg st r) rest.
Proof. reflexivity. Qed.

(** ** C1: the tithe *)




(** ** C2: empty amounts *)

(** C2 (evaluated at the failing input): an empty amount field, and a
    missing one (padded with [""] by [iter_csv_rows]), is rejected by
    [parse_decimal] with "Invalid amount value: ''"; only Python's [None]
    gives zero. *)
Theorem C2_empty_amount_is_rejected :
  parse_decimal (Some "") = Raise (HTTPException 400 (InvalidAmountValue ""))
  /\ parse_decimal None = Ok (Fin false 0 0)
  /\ match tithing (fixed_reader [header_row; payroll_row "09/15/2025" ""; ["09/16/2025"]])
             "x" "2025-09-01" "2025-09-30" "MILLWORK DEV PAYROLL" (Fin false 1 (-1)) 10 true FmtJson with
     | Ok (JSONResponse j) =>
         count j = 0
         /\ errs j = [(2, HTTPException 400 (InvalidAmountValue ""));
                      (3, HTTPException 400 (InvalidAmountValue ""))]
     | _ => False
     end.
Proof. vm_compute. repeat split; reflexivity. Qed.

(** ** C4: malformed amounts *)

(** C4, counterexample: on line 2, a row dated outside the range with
    amount "abc" is dropped by the range stage before its amount is read:
    no diagnostic is recorded. *)
Lemma C4_out_of_range_bad_amount_counterexample :
  parse_decimal (Some "abc") = Raise (HTTPException 400 (InvalidAmountValue "abc"))
  /\ errors (run_loop september init_state
               (iter_csv_rows [header_row; payroll_row "08/15/2025" "abc"])) = [].
Proof. vm_compute. split; reflexivity. Qed.

(** C4 (amended): a row whose date parses and lies in the range but whose
    amount text [Decimal] rejects gets a diagnostic "Invalid amount value"
    with its own line number, leaves the matches and the total unchanged,
    and the loop goes on with the next row. *)
Theorem C4_bad_amount_in_range : forall cfg st n row d e rest,
  parse_date (field row 0) = Ok d ->
  Date.le (start_date cfg) d && Date.le d (end_date cfg) = true ->
  parse_decimal (Some (field row 1)) = Raise e ->
  (exists t, e = HTTPException 400 (InvalidAmountValue t))
  /\ step cfg st (n, row) = mkstate (matches st) (total st) (errors st ++ [(n, e)])
  /\ run_loop cfg st ((n, row) :: rest)
     = run_loop cfg (mkstate (matches st) (total st) (errors st ++ [(n, e)])) rest.
Proof.
  intros cfg st n row d e rest Hd Hr Ha.
  assert (Hs : step cfg st (n, row) = mkstate (matches st) (total st) (errors st ++ [(n, e)])).
  { unfold step, row_body. rewrite Hd, Hr. simpl negb. cbv iota. rewrite Ha. reflexivity. }
  split; [eapply parse_decimal_error; exact Ha|].
  split; [exact Hs|]. rewrite run_loop_cons, Hs. reflexivity.
Qed.

Lemma C4_bad_amount_in_range_witness :
  (exists t, HTTPException 400 (InvalidAmountValue "abc") = HTTPException 400 (InvalidAmountValue t))
  /\ step september init_state (2, payroll_row "09/15/2025" "abc")
     = mkstate [] (Fin false 0 0) [(2, HTTPException 400 (InvalidAmountValue "abc"))]
  /\ run_loop september init_state [(2, payroll_row "09/15/2025" "abc")]
     = run_loop september (mkstate [] (Fin false 0 0) [(2, HTTPException 400 (InvalidAmountValue "abc"))]) [].
Proof.
  exact (C4_bad_amount_in_range september init_state 2 (payroll_row "09/15/2025" "abc")
           (mkdate 2025 9 15) (HTTPException 400 (InvalidAmountValue "abc")) []
           ltac:(reflexivity) ltac:(reflexivity) ltac:(reflexivity)).
Defined.

(** ** C5: the header heuristic *)

(** C5: a date that does not parse on line 1 makes the row a silent
    [continue]; on any other line the same failure is recorded as the
    diagnostic "Invalid date value" for that line and the row is skipped. *)
Theorem C5_header_heuristic : forall cfg st row e,
  parse_date (field row 0) = Raise e ->
  e = HTTPException 400 (InvalidDateValue (field row 0))
  /\ step cfg st (1, row) = st
  /\ (forall n, n <> 1 ->
        step cfg st (n, row) = mkstate (matches st) (total st) (errors st ++ [(n, e)])).
Proof.
  intros cfg st row e He.
  split; [apply parse_date_error, He|].
  split.
  - unfold step, row_body. rewrite He. reflexivity.
  - intros n Hn. unfold step, row_body. rewrite He.
    replace (n =? 1) with false by (symmetry; apply Z.eqb_neq; exact Hn). reflexivity.
Qed.

Lemma C5_header_heuristic_witness :
  HTTPException 400 (InvalidDateValue "Date") = HTTPException 400 (InvalidDateValue "Date")
  /\ step september init_state (1, header_row) = init_state
  /\ (forall n, n <> 1 ->
        step september init_state (n, header_row)
        = mkstate [] (Fin false 0 0) [(n, HTTPException 400 (InvalidDateValue "Date"))]).
Proof.
  exact (C5_header_heuristic september init_state header_row
           (HTTPException 400 (InvalidDateValue "Date")) ltac:(reflexivity)).
Defined.

(** ** C7: request-level rejections *)

(** C7: unparseable bounds, an end before the start, or an empty upload
    make [tithing] raise an HTTP 400 before the loop: the outcome is the
    same whatever rows the upload would decode to. *)
Theorem C7_request_rejections : forall data start end_ desc rate pct ci fmt,
  (exists e, strptime start ISO_FMT = Raise e)
  \/ (exists e, strptime end_ ISO_FMT = Raise e)
  \/ (exists sd ed, strptime start ISO_FMT = Ok sd /\ strptime end_ ISO_FMT = Ok ed
                    /\ Date.lt ed sd = true)
  \/ data = "" ->
  exists d, forall reader,
    tithing reader data start end_ desc rate pct ci fmt = Raise (HTTPException 400 d).
Proof.
  intros data start end_ desc rate pct ci fmt H. unfold tithing.
  destruct (strptime start ISO_FMT) as [sd|e1] eqn:Hs;
    [|exists DatesFormat; intros reader; reflexivity].
  destruct (strptime end_ ISO_FMT) as [ed|e2] eqn:He;
    [|exists DatesFormat; intros reader; reflexivity].
  destruct (Date.lt ed sd) eqn:Hlt; [exists EndBeforeStart; intros reader; reflexivity|].
  destruct H as [[e H]|[[e H]|[(sd' & ed' & H1 & H2 & H3)|H]]]; try discriminate.
  - inversion H1; inversion H2; subst. congruence.
  - subst data. exists EmptyUpload. intros reader. reflexivity.
Qed.

Lemma C7_request_rejections_witness :
  exists d, forall reader,
    tithing reader "x" "2025-09-30" "2025-09-01" "MILLWORK DEV PAYROLL" (Fin false 1 (-1)) 10 true FmtJson
    = Raise (HTTPException 400 d).
Proof.
  apply (C7_request_rejections "x" "2025-09-30" "2025-09-01" "MILLWORK DEV PAYROLL" (Fin false 1 (-1)) 10 true FmtJson).
  right. right. left. exists (mkdate 2025 9 30), (mkdate 2025 9 1). repeat split; reflexivity.
Defined.

(** ** Lemmas on one iteration of the loop *)

Lemma dec_fix_result : forall s c e,
  (forall t, dec_fix s c e = Ok t -> exists s' c' e', t = Fin s' c' e')
  /\ (forall x, dec_fix s c e = Raise x -> x = Overflow).
Proof.
  intros s c e. unfold dec_fix.
  destruct (c =? 0); [split; intros; inversion H; eauto|].
  destruct (etop <? _); [split; intros; inversion H; eauto|].
  destruct (e <? _); [|split; intros; inversion H; eauto].
  destruct (if prec <? _ then _ else _) as [coeff exp_min].
  destruct (etop <? exp_min); split; intros; inversion H; eauto.
Qed.

(** Adding a positive amount to a total that is finite or [+Infinity]
    gives such a total again, or raises [Overflow]. *)
Lemma add_positive : forall a b,
  total_ok a -> le_zero b = Ok false ->
  (forall t, add a b = Ok t -> total_ok t) /\ (forall x, add a b = Raise x -> x = Overflow).
Proof.
  intros a b Ha Hb.
  destruct b as [sb cb eb|sb|sig]; simpl in Hb; inversion Hb as [Hb'].
  - destruct a as [sa ca ea|[|]|sig]; simpl in Ha; try contradiction.
    + assert (Hf : exists s c e, add (Fin sa ca ea) (Fin sb cb eb) = dec_fix s c e).
      { unfold add. destruct (normalize ca ea cb eb) as [[i1 i2] x].
        repeat match goal with |- context [if ?b then _ else _] => destruct b end; eauto. }
      destruct Hf as (s & c & e & ->).
      destruct (dec_fix_result s c e) as [H1 H2].
      split; [intros t Ht; destruct (H1 t Ht) as (? & ? & ? & ->); exact I | exact H2].
    + split; intros; simpl in *; inversion H; exact I.
  - subst sb. destruct a as [sa ca ea|[|]|sig]; simpl in Ha; try contradiction;
      split; intros; simpl in *; inversion H; exact I.
Qed.

Lemma row_body_shape : forall cfg st n row st',
  row_body cfg st n row = Ok (Some st') ->
  st' = st
  \/ exists a m t, le_zero a = Ok false /\ add (total st) a = Ok t
                   /\ st' = mkstate (matches st ++ [m]) t (errors st).
Proof.
  intros cfg st n row st' H. unfold row_body, bind in H. cbv zeta in H.
  destruct (parse_date (field row 0)) as [d|e]; [|destruct (n =? 1); discriminate].
  destruct (negb _); [discriminate|].
  destruct (parse_decimal _) as [a|e]; [|discriminate].
  destruct (le_zero a) as [[|]|e] eqn:Hz; try discriminate.
  destruct (PyStr.contains _ _); [|left; congruence].
  destruct (add (total st) a) as [t|e] eqn:Ht; [|discriminate].
  right. inversion H. eauto 7.
Qed.

Lemma step_errors_grow : forall cfg st r, exists l, errors (step cfg st r) = (errors st ++ l)%list.
Proof.
  intros cfg st [n row]. unfold step.
  destruct (row_body cfg st n row) as [[st'|]|e] eqn:H.
  - destruct (row_body_shape _ _ _ _ _ H) as [->|(a & m & t & _ & _ & ->)];
      exists []; rewrite app_nil_r; reflexivity.
  - exists []; rewrite app_nil_r; reflexivity.
  - exists [(n, e)]. reflexivity.
Qed.

Lemma run_loop_errors_grow : forall cfg rows st,
  exists l, errors (run_loop cfg st rows) = (errors st ++ l)%list.
Proof.
  intros cfg rows. induction rows as [|r rows IH]; intros st.
  - exists []. rewrite app_nil_r. reflexivity.
  - rewrite run_loop_cons. destruct (IH (step cfg st r)) as [l1 H1].
    destruct (step_errors_grow cfg st r) as [l2 H2].
    exists (l2 ++ l1). rewrite H1, H2, app_assoc. reflexivity.
Qed.

Lemma step_total_ok : forall cfg st r, total_ok (total st) -> total_ok (total (step cfg st r)).
Proof.
  intros cfg st [n row] Hok. unfold step.
  destruct (row_body cfg st n row) as [[st'|]|e] eqn:H; try exact Hok.
  destruct (row_body_shape _ _ _ _ _ H) as [->|(a & m & t & Hz & Ht & ->)]; [exact Hok|].
  exact (proj1 (add_positive _ _ Hok Hz) t Ht).
Qed.

(** A row that passes all four stages reaches the aggregation: its amount
    is added to the total and its record appended, unless the addition
    raises, which is then recorded for its line. *)
Lemma step_aggregate : forall cfg st n row d amount,
  parse_date (field row 0) = Ok d ->
  Date.le (start_date cfg) d && Date.le d (end_date cfg) = true ->
  parse_decimal (Some (field row 1)) = Ok amount ->
  le_zero amount = Ok false ->
  PyStr.contains (if case_insensitive cfg then PyStr.lower (PyStr.strip (field row 4))
                  else PyStr.strip (field row 4)) (needle cfg) = true ->
  step cfg st (n, row) =
    match add (total st) amount with
    | Ok t => mkstate (matches st ++ [mkmatch (isoformat d) (format_2f amount) (PyStr.strip (field row 4))])
                t (errors st)
    | Raise e => mkstate (matches st) (total st) (errors st ++ [(n, e)])
    end.
Proof.
  intros cfg st n row d amount Hd Hr Ha Hz Hc.
  unfold step, row_body, bind. cbv zeta. rewrite Hd, Hr. simpl negb. cbv iota.
  rewrite Ha, Hz, Hc. destruct (add (total st) amount); reflexivity.
Qed.

Lemma step_cases : forall cfg st n row,
  match passes cfg (n, row) with
  | None => matches (step cfg st (n, row)) = matches st
  | Some m =>
      exists amount, le_zero amount = Ok false /\
        step cfg st (n, row) =
          match add (total st) amount with
          | Ok t => mkstate (matches st ++ [m]) t (errors st)
          | Raise e => mkstate (matches st) (total st) (errors st ++ [(n, e)])
          end
  end.
Proof.
  intros cfg st n row. unfold passes. cbv zeta.
  destruct (parse_date (field row 0)) as [d|e] eqn:Hd.
  2:{ unfold step, row_body. rewrite Hd. destruct (n =? 1); reflexivity. }
  destruct (Date.le (start_date cfg) d && Date.le d (end_date cfg)) eqn:Hr.
  2:{ unfold step, row_body. rewrite Hd, Hr. reflexivity. }
  destruct (parse_decimal (Some (field row 1))) as [a|e] eqn:Ha.
  2:{ unfold step, row_body, bind. rewrite Hd, Hr. simpl negb. cbv iota. rewrite Ha. reflexivity. }
  destruct (le_zero a) as [[|]|e] eqn:Hz.
  - unfold step, row_body, bind. rewrite Hd, Hr. simpl negb. cbv iota. rewrite Ha, Hz. reflexivity.
  - destruct (PyStr.contains _ _) eqn:Hc.
    + exists a. split; [exact Hz|]. rewrite (step_aggregate cfg st n row d a Hd Hr Ha Hz Hc).
      reflexivity.
    + unfold step, row_body, bind. cbv zeta. rewrite Hd, Hr. simpl negb. cbv iota.
      rewrite Ha, Hz, Hc. reflexivity.
  - unfold step, row_body, bind. rewrite Hd, Hr. simpl negb. cbv iota. rewrite Ha, Hz. reflexivity.
Qed.

Lemma run_loop_matches : forall cfg rows st,
  total_ok (total st) ->
  ~ In Overflow (map snd (errors (run_loop cfg st rows))) ->
  matches (run_loop cfg st rows)
  = matches st ++ flat_map (fun r => match passes cfg r with Some m => [m] | None => [] end) rows.
Proof.
  intros cfg rows. induction rows as [|[n row] rows IH]; intros st Hok Hno.
  - simpl. rewrite app_nil_r. reflexivity.
  - rewrite run_loop_cons in *. rewrite (IH _ (step_total_ok cfg st _ Hok) Hno).
    cbn [flat_map]. rewrite app_assoc. f_equal.
    pose proof (step_cases cfg st n row) as Hc.
    destruct (passes cfg (n, row)) as [m|]; [|rewrite Hc, app_nil_r; reflexivity].
    destruct Hc as (a & Hz & Hs).
    destruct (add (total st) a) as [t|e] eqn:Ht; rewrite Hs; [reflexivity|].
    exfalso. apply Hno.
    rewrite (proj2 (add_positive _ _ Hok Hz) e Ht) in Hs.
    destruct (run_loop_errors_grow cfg rows (step cfg st (n, row))) as [l Hl].
    rewrite Hl, Hs. simpl. rewrite !map_app, !in_app_iff. simpl. tauto.
Qed.

Lemma date_le_refl : forall d, Date.le d d = true.
Proof.
  intros d. unfold Date.le. rewrite !Z.eqb_refl, Z.leb_refl. simpl.
  rewrite !orb_true_r. reflexivity.
Qed.

Lemma contains_empty : forall h, PyStr.contains h "" = true.
Proof. intros [|c h]; reflexivity. Qed.

(** ** C6: the match list *)

(** C6 (counterexample): two rows that pass every filter stage, but the
    second addition [total += amount] raises [Overflow]; the [except
    Exception] handler records it, and the second row is not in the
    matches. *)
Lemma C6_overflow_counterexample :
  length (passing_matches september (huge_rows "09/15/2025" "09/16/2025")) = 2%nat
  /\ length (matches (run_loop september init_state (huge_rows "09/15/2025" "09/16/2025"))) = 1%nat
  /\ map snd (errors (run_loop september init_state (huge_rows "09/15/2025" "09/16/2025")))
     = [Overflow].
Proof. lazy. repeat split. Qed.

(** C6 (amended): when no row's addition to the total overflowed (no
    [Overflow] diagnostic), the match list is exactly the rows passing the
    four stages, each once, in source order. *)
Theorem C6_matches_are_passing_rows : forall cfg rows,
  ~ In Overflow (map snd (errors (run_loop cfg init_state rows))) ->
  matches (run_loop cfg init_state rows) = passing_matches cfg rows.
Proof.
  intros cfg rows H. unfold passing_matches.
  rewrite (run_loop_matches cfg rows init_state I H). reflexivity.
Qed.

Lemma C6_matches_are_passing_rows_witness :
  ~ In Overflow (map snd (errors (run_loop september init_state (iter_csv_rows spec_rows))))
  /\ matches (run_loop september init_state (iter_csv_rows spec_rows))
     = passing_matches september (iter_csv_rows spec_rows).
Proof.
  assert (H : ~ In Overflow (map snd (errors (run_loop september init_state (iter_csv_rows spec_rows)))))
    by (vm_compute; intros []).
  split; [exact H|].
  exact (C6_matches_are_passing_rows september (iter_csv_rows spec_rows) H).
Defined.

(** ** C8: inclusive bounds *)

(** C8 (counterexample): both rows are dated on [start_date] and pass the
    other stages; the second is not in the matches because adding it to
    the total overflows. *)
Lemma C8_bound_overflow_counterexample :
  length (passing_matches september (huge_rows "09/01/2025" "09/01/2025")) = 2%nat
  /\ length (matches (run_loop september init_state (huge_rows "09/01/2025" "09/01/2025"))) = 1%nat
  /\ map snd (errors (run_loop september init_state (huge_rows "09/01/2025" "09/01/2025")))
     = [Overflow].
Proof. lazy. repeat split. Qed.

(** C8 (amended): a row dated exactly [start_date] or [end_date] (with
    start <= end) that passes the amount and description stages is
    appended to the matches, provided adding its amount to the running
    total succeeds. *)
Theorem C8_inclusive_bounds : forall cfg st n row d amount t,
  Date.le (start_date cfg) (end_date cfg) = true ->
  parse_date (field row 0) = Ok d ->
  d = start_date cfg \/ d = end_date cfg ->
  parse_decimal (Some (field row 1)) = Ok amount ->
  le_zero amount = Ok false ->
  PyStr.contains (if case_insensitive cfg then PyStr.lower (PyStr.strip (field row 4))
                  else PyStr.strip (field row 4)) (needle cfg) = true ->
  add (total st) amount = Ok t ->
  step cfg st (n, row)
  = mkstate (matches st ++ [mkmatch (isoformat d) (format_2f amount) (PyStr.strip (field row 4))])
      t (errors st).
Proof.
  intros cfg st n row d amount t Hse Hd Hb Ha Hz Hc Ht.
  assert (Hr : Date.le (start_date cfg) d && Date.le d (end_date cfg) = true).
  { destruct Hb as [-> | ->]; rewrite date_le_refl, Hse; reflexivity. }
  rewrite (step_aggregate cfg st n row d amount Hd Hr Ha Hz Hc), Ht. reflexivity.
Qed.

Lemma C8_inclusive_bounds_witness :
  step september init_state (2, payroll_row "09/01/2025" "1500.00")
  = mkstate [mkmatch (isoformat (mkdate 2025 9 1)) (format_2f (Fin false 150000 (-2)))
               (PyStr.strip "MILLWORK DEV PAYROLL #123")]
      (Fin false 150000 (-2)) [].
Proof.
  exact (C8_inclusive_bounds september init_state 2 (payroll_row "09/01/2025" "1500.00")
           (mkdate 2025 9 1) (Fin false 150000 (-2)) (Fin false 150000 (-2))
           ltac:(vm_compute; reflexivity) ltac:(vm_compute; reflexivity) (or_introl eq_refl)
           ltac:(vm_compute; reflexivity) ltac:(vm_compute; reflexivity)
           ltac:(vm_compute; reflexivity) ltac:(vm_compute; reflexivity)).
Defined.

(** ** C9: empty needle *)

(** C9 (counterexample): with [desc_contains=""] both rows pass every
    stage; the second is not matched because adding it overflows. *)
Lemma C9_empty_needle_overflow_counterexample :
  length (passing_matches september_any (huge_rows "09/15/2025" "09/16/2025")) = 2%nat
  /\ length (matches (run_loop september_any init_state (huge_rows "09/15/2025" "09/16/2025"))) = 1%nat
  /\ map snd (errors (run_loop september_any init_state (huge_rows "09/15/2025" "09/16/2025")))
     = [Overflow].
Proof. lazy. repeat split. Qed.

(** C9 (amended): with an empty needle, a row passing the date-parse,
    date-range and positive-amount stages is appended to the matches
    whatever its description, provided adding its amount to the running
    total succeeds. *)
Theorem C9_empty_needle_matches : forall cfg st n row d amount t,
  needle cfg = "" ->
  parse_date (field row 0) = Ok d ->
  Date.le (start_date cfg) d && Date.le d (end_date cfg) = true ->
  parse_decimal (Some (field row 1)) = Ok amount ->
  le_zero amount = Ok false ->
  add (total st) amount = Ok t ->
  step cfg st (n, row)
  = mkstate (matches st ++ [mkmatch (isoformat d) (format_2f amount) (PyStr.strip (field row 4))])
      t (errors st).
Proof.
  intros cfg st n row d amount t Hn Hd Hr Ha Hz Ht.
  assert (Hc : PyStr.contains (if case_insensitive cfg then PyStr.lower (PyStr.strip (field row 4))
                               else PyStr.strip (field row 4)) (needle cfg) = true)
    by (rewrite Hn; apply contains_empty).
  rewrite (step_aggregate cfg st n row d amount Hd Hr Ha Hz Hc), Ht. reflexivity.
Qed.

Lemma C9_empty_needle_matches_witness :
  step september_any init_state (2, ["09/15/2025"; "1500.00"; "*"; ""; "UNRELATED"])
  = mkstate [mkmatch (isoformat (mkdate 2025 9 15)) (format_2f (Fin false 150000 (-2)))
               (PyStr.strip "UNRELATED")]
      (Fin false 150000 (-2)) [].
Proof.
  exact (C9_empty_needle_matches september_any init_state 2
           ["09/15/2025"; "1500.00"; "*"; ""; "UNRELATED"]
           (mkdate 2025 9 15) (Fin false 150000 (-2)) (Fin false 150000 (-2))
           ltac:(vm_compute; reflexivity) ltac:(vm_compute; reflexivity)
           ltac:(vm_compute; reflexivity) ltac:(vm_compute; reflexivity)
           ltac:(vm_compute; reflexivity) ltac:(vm_compute; reflexivity)).
Defined.

(** ** [Decimal(f"{x:.2f}")] gives back the two-decimal value *)

Lemma str_all_app : forall f a b, str_all f (append a b) = str_all f a && str_all f b.
Proof.
  intros f a b. induction a as [|c a IH]; [reflexivity|].
  cbn [append str_all]. rewrite IH, andb_assoc. reflexivity.
Qed.

Lemma all_digits_app : forall a b,
  PyStr.all_digits (append a b) = PyStr.all_digits a && PyStr.all_digits b.
Proof.
  intros a b. induction a as [|c a IH]; [reflexivity|].
  cbn [append PyStr.all_digits]. rewrite IH, andb_assoc. reflexivity.
Qed.

Lemma all_digits_str_all : forall d, PyStr.all_digits d = true -> str_all fixed_char d = true.
Proof.
  induction d as [|c d IH]; intros H; [reflexivity|].
  cbn [PyStr.all_digits] in H. apply andb_prop in H as [Hc Hd].
  cbn [str_all]. rewrite (IH Hd). unfold fixed_char. rewrite Hc. reflexivity.
Qed.

Lemma fixed_char_props : forall c, fixed_char c = true ->
  PyStr.isspace c = false /\ Ascii.eqb "_" c = false /\ PyStr.lower_char c = c.
Proof.
  intros [[] [] [] [] [] [] [] []] H; vm_compute in H; try discriminate H;
    vm_compute; repeat split.
Qed.

Lemma digit_cases : forall c, PyStr.isdigit c = true ->
  c = "0"%char \/ c = "1"%char \/ c = "2"%char \/ c = "3"%char \/ c = "4"%char
  \/ c = "5"%char \/ c = "6"%char \/ c = "7"%char \/ c = "8"%char \/ c = "9"%char.
Proof.
  intros [[] [] [] [] [] [] [] []] H; vm_compute in H; try discriminate H;
    repeat first [left; reflexivity | right]; reflexivity.
Qed.

Lemma digit_char : forall k, 0 <= k < 10 ->
  PyStr.isdigit (ascii_of_nat (Z.to_nat (48 + k))) = true
  /\ PyStr.digit_val (ascii_of_nat (Z.to_nat (48 + k))) = k.
Proof.
  intros k Hk. unfold PyStr.isdigit, PyStr.digit_val.
  rewrite nat_ascii_embedding by lia. split.
  - apply andb_true_intro. split; apply Nat.leb_le; lia.
  - rewrite Z2Nat.id by lia. lia.
Qed.

Lemma lstrip_id : forall s, str_all fixed_char s = true -> PyStr.lstrip s = s.
Proof.
  intros [|c s] H; [reflexivity|].
  cbn [str_all] in H. apply andb_prop in H as [Hc _].
  cbn [PyStr.lstrip]. rewrite (proj1 (fixed_char_props c Hc)). reflexivity.
Qed.

Lemma rstrip_id : forall s, str_all fixed_char s = true -> PyStr.rstrip s = s.
Proof.
  induction s as [|c s IH]; intros H; [reflexivity|].
  cbn [str_all] in H. apply andb_prop in H as [Hc Hs].
  cbn [PyStr.rstrip]. rewrite (IH Hs).
  destruct s; [rewrite (proj1 (fixed_char_props c Hc))|]; reflexivity.
Qed.

Lemma strip_id : forall s, str_all fixed_char s = true -> PyStr.strip s = s.
Proof. intros s H. unfold PyStr.strip. rewrite lstrip_id, rstrip_id; auto. Qed.

Lemma remove_char_id : forall s, str_all fixed_char s = true -> PyStr.remove_char "_" s = s.
Proof.
  induction s as [|c s IH]; intros H; [reflexivity|].
  cbn [str_all] in H. apply andb_prop in H as [Hc Hs].
  cbn [PyStr.remove_char]. rewrite (proj1 (proj2 (fixed_char_props c Hc))), (IH Hs).
  reflexivity.
Qed.

Lemma lower_id : forall s, str_all fixed_char s = true -> PyStr.lower s = s.
Proof.
  induction s as [|c s IH]; intros H; [reflexivity|].
  cbn [str_all] in H. apply andb_prop in H as [Hc Hs].
  cbn [PyStr.lower]. rewrite (proj2 (proj2 (fixed_char_props c Hc))), (IH Hs).
  reflexivity.
Qed.

Lemma digits_value_acc_app : forall s t a,
  PyStr.digits_value_acc a (append s t) = PyStr.digits_value_acc (PyStr.digits_value_acc a s) t.
Proof. induction s as [|c s IH]; intros t a; [reflexivity|]. apply IH. Qed.

Lemma digits_value_acc_shift : forall s a,
  PyStr.digits_value_acc a s = a * 10 ^ Z.of_nat (String.length s) + PyStr.digits_value s.
Proof.
  induction s as [|c s IH]; intros a.
  - unfold PyStr.digits_value. simpl. lia.
  - unfold PyStr.digits_value. cbn [PyStr.digits_value_acc String.length].
    rewrite !IH, Nat2Z.inj_succ, Z.pow_succ_r by lia. ring.
Qed.

Lemma append_snoc : forall d c acc, append (append d (String c EmptyString)) acc = append d (String c acc).
Proof. induction d as [|x d IH]; intros c acc; [reflexivity|]. cbn [append]. rewrite IH. reflexivity. Qed.

Lemma show_nat_aux_S : forall f n acc,
  PyStr.show_nat_aux (S f) n acc
  = if n <? 10 then String (ascii_of_nat (Z.to_nat (48 + n mod 10))) acc
    else PyStr.show_nat_aux f (n / 10) (String (ascii_of_nat (Z.to_nat (48 + n mod 10))) acc).
Proof. reflexivity. Qed.

Lemma show_nat_aux_spec : forall f n acc, 0 <= n < 10 ^ Z.of_nat (S f) ->
  exists d, PyStr.show_nat_aux (S f) n acc = append d acc /\ d <> EmptyString
            /\ PyStr.all_digits d = true /\ PyStr.digits_value d = n.
Proof.
  induction f as [|f IH]; intros n acc Hn.
  - simpl in Hn. cbn [PyStr.show_nat_aux].
    replace (n <? 10) with true by (symmetry; apply Z.ltb_lt; lia).
    rewrite Z.mod_small by lia. destruct (digit_char n) as [Hd Hv]; [lia|].
    exists (String (ascii_of_nat (Z.to_nat (48 + n))) EmptyString).
    repeat split; [discriminate| |].
    + cbn [PyStr.all_digits]. rewrite Hd. reflexivity.
    + unfold PyStr.digits_value. cbn [PyStr.digits_value_acc]. rewrite Hv. lia.
  - rewrite show_nat_aux_S.
    destruct (digit_char (n mod 10)) as [Hd Hv]; [apply Z.mod_pos_bound; lia|].
    set (ch := ascii_of_nat (Z.to_nat (48 + n mod 10))) in *.
    destruct (n <? 10) eqn:E.
    + apply Z.ltb_lt in E. rewrite Z.mod_small in Hv by lia.
      exists (String ch EmptyString). repeat split; [discriminate| |].
      * cbn [PyStr.all_digits]. rewrite Hd. reflexivity.
      * unfold PyStr.digits_value. cbn [PyStr.digits_value_acc]. rewrite Hv. lia.
    + apply Z.ltb_ge in E.
      assert (Hq : 0 <= n / 10 < 10 ^ Z.of_nat (S f)).
      { split; [apply Z.div_pos; lia|].
        apply Z.div_lt_upper_bound; [lia|].
        rewrite <- Z.pow_succ_r by lia. rewrite <- Nat2Z.inj_succ. lia. }
      destruct (IH (n / 10) (String ch acc) Hq) as (d & Hs & Hne & Had & Hdv).
      exists (append d (String ch EmptyString)). repeat split.
      * rewrite Hs, append_snoc. reflexivity.
      * destruct d; [congruence|discriminate].
      * rewrite all_digits_app, Had. cbn. rewrite Hd. reflexivity.
      * unfold PyStr.digits_value. rewrite digits_value_acc_app. fold (PyStr.digits_value d).
        rewrite Hdv. cbn [PyStr.digits_value_acc]. rewrite Hv.
        pose proof (Z.div_mod n 10). lia.
Qed.

Lemma append_empty : forall s, append s EmptyString = s.
Proof. induction s as [|c s IH]; [reflexivity|]. cbn [append]. rewrite IH. reflexivity. Qed.

Lemma show_nat_spec : forall n, 0 <= n ->
  PyStr.show_nat n <> EmptyString /\ PyStr.all_digits (PyStr.show_nat n) = true
  /\ PyStr.digits_value (PyStr.show_nat n) = n.
Proof.
  intros n Hn. unfold PyStr.show_nat.
  destruct (show_nat_aux_spec (Z.to_nat (Z.log2 n)) n EmptyString) as (d & Hs & H1 & H2 & H3).
  - split; [exact Hn|].
    rewrite Nat2Z.inj_succ, Z2Nat.id by apply Z.log2_nonneg.
    destruct (Z.eq_dec n 0) as [->|Hnz]; [apply Z.pow_pos_nonneg; [lia|apply Z.le_le_succ_r, Z.log2_nonneg]|].
    destruct (Z.log2_spec n) as [_ Hlt]; [lia|].
    eapply Z.lt_le_trans; [exact Hlt|].
    apply Z.pow_le_mono_l. lia.
  - rewrite Hs, append_empty. auto.
Qed.

Lemma zero_pad2_nat : forall k, (k < 100)%nat ->
  PyStr.all_digits (PyStr.zero_pad 2 (PyStr.show_nat (Z.of_nat k))) = true
  /\ String.length (PyStr.zero_pad 2 (PyStr.show_nat (Z.of_nat k))) = 2%nat
  /\ PyStr.digits_value (PyStr.zero_pad 2 (PyStr.show_nat (Z.of_nat k))) = Z.of_nat k.
Proof.
  intros k Hk. do 100 (destruct k as [|k]; [vm_compute; repeat split|]). lia.
Qed.

Lemma zero_pad2_spec : forall m, 0 <= m < 100 ->
  PyStr.all_digits (PyStr.zero_pad 2 (PyStr.show_nat m)) = true
  /\ String.length (PyStr.zero_pad 2 (PyStr.show_nat m)) = 2%nat
  /\ PyStr.digits_value (PyStr.zero_pad 2 (PyStr.show_nat m)) = m.
Proof.
  intros m Hm. rewrite <- (Z2Nat.id m) by lia. apply zero_pad2_nat. lia.
Qed.

Lemma span_digits_all : forall d, PyStr.all_digits d = true -> PyStr.span_digits d = (d, EmptyString).
Proof.
  induction d as [|c d IH]; intros H; [reflexivity|].
  cbn [PyStr.all_digits] in H. apply andb_prop in H as [Hc Hd].
  cbn [PyStr.span_digits]. rewrite Hc, (IH Hd). reflexivity.
Qed.

Lemma span_digits_app : forall d c r, PyStr.all_digits d = true -> PyStr.isdigit c = false ->
  PyStr.span_digits (append d (String c r)) = (d, String c r).
Proof.
  induction d as [|x d IH]; intros c r H Hc.
  - cbn. rewrite Hc. reflexivity.
  - cbn [PyStr.all_digits] in H. apply andb_prop in H as [Hx Hd].
    cbn [append PyStr.span_digits]. rewrite Hx, (IH c r Hd Hc). reflexivity.
Qed.

Lemma of_string_unfold : forall (neg : bool) c y,
  PyStr.isdigit c = true -> str_all fixed_char (String c y) = true ->
  of_string (append (if neg then "-" else "") (String c y)) = parse_finite neg (String c y).
Proof.
  intros neg c y Hc Hy.
  assert (Hs : str_all fixed_char (append (if neg then "-" else "") (String c y)) = true)
    by (destruct neg; cbn [append str_all]; rewrite ?Hy; reflexivity || exact Hy).
  unfold of_string. rewrite (strip_id _ Hs), (remove_char_id _ Hs).
  destruct (digit_cases c Hc) as [->|[->|[->|[->|[->|[->|[->|[->|[->| ->]]]]]]]]];
    destruct neg; cbn [append]; cbv beta iota zeta; rewrite (lower_id _ Hy); reflexivity.
Qed.

Lemma parse_finite_fixed : forall neg d1 d2,
  d1 <> EmptyString -> PyStr.all_digits d1 = true -> PyStr.all_digits d2 = true ->
  String.length d2 = 2%nat -> ndigits (PyStr.digits_value (append d1 d2)) <= max_emax + 3 ->
  parse_finite neg (append d1 (append "." d2))
  = Some (Fin neg (PyStr.digits_value (append d1 d2)) (-2)).
Proof.
  intros neg d1 d2 Hne H1 H2 Hl Hn.
  unfold parse_finite. change (append "." d2) with (String "." d2).
  rewrite (span_digits_app d1 "." d2 H1 eq_refl).
  cbv beta iota zeta. rewrite (span_digits_all d2 H2).
  destruct d1 as [|c d1]; [congruence|]. cbv beta iota zeta.
  cbn [parse_exponent]. unfold finite_of_parts. rewrite Hl.
  set (C := PyStr.digits_value (append (String c d1) d2)) in *.
  destruct (C =? 0) eqn:Ez.
  - apply Z.eqb_eq in Ez. rewrite Ez. reflexivity.
  - unfold max_etiny, max_emax in *.
    replace ((-1999999999999999997 <=? 0 - Z.of_nat 2)
             && (ndigits C + (0 - Z.of_nat 2) - 1 <=? 999999999999999999)) with true
      by (symmetry; apply andb_true_intro; split; apply Z.leb_le; lia).
    reflexivity.
Qed.

Lemma of_string_fixed : forall (neg : bool) d1 d2,
  d1 <> EmptyString -> PyStr.all_digits d1 = true -> PyStr.all_digits d2 = true ->
  String.length d2 = 2%nat -> ndigits (PyStr.digits_value (append d1 d2)) <= max_emax + 3 ->
  of_string (append (if neg then "-" else "") (append d1 (append "." d2)))
  = Some (Fin neg (PyStr.digits_value (append d1 d2)) (-2)).
Proof.
  intros neg d1 d2 Hne H1 H2 Hl Hn.
  assert (Hb : str_all fixed_char (append d1 (append "." d2)) = true).
  { rewrite !str_all_app, (all_digits_str_all d1 H1), (all_digits_str_all d2 H2). reflexivity. }
  rewrite <- (parse_finite_fixed neg d1 d2 Hne H1 H2 Hl Hn).
  destruct d1 as [|c y]; [congruence|].
  assert (Hc : PyStr.isdigit c = true) by (cbn [PyStr.all_digits] in H1; apply andb_prop in H1; tauto).
  change (append (String c y) (append "." d2)) with (String c (append y (append "." d2))) in Hb |- *.
  apply (of_string_unfold neg c _ Hc Hb).
Qed.

Lemma of_string_show_fixed2_max : forall s q, 0 <= q -> ndigits q <= max_emax + 3 ->
  of_string (show_fixed2 s q) = Some (Fin s q (-2)).
Proof.
  intros s q Hq Hn. unfold show_fixed2.
  destruct (show_nat_spec (q / 100)) as (Hne & H1 & Hv1); [apply Z.div_pos; lia|].
  destruct (zero_pad2_spec (q mod 100)) as (H2 & Hl & Hv2); [apply Z.mod_pos_bound; lia|].
  assert (Hv : PyStr.digits_value (append (PyStr.show_nat (q / 100))
                                     (PyStr.zero_pad 2 (PyStr.show_nat (q mod 100)))) = q).
  { unfold PyStr.digits_value at 1. rewrite digits_value_acc_app.
    fold (PyStr.digits_value (PyStr.show_nat (q / 100))).
    rewrite digits_value_acc_shift, Hl, Hv1, Hv2. pose proof (Z.div_mod q 100). simpl. lia. }
  rewrite of_string_fixed; [rewrite Hv; reflexivity|assumption..|rewrite Hv; exact Hn].
Qed.

Lemma of_string_show_fixed2 : forall s q, 0 <= q -> ndigits q <= prec ->
  of_string (show_fixed2 s q) = Some (Fin s q (-2)).
Proof.
  intros s q Hq Hn. apply of_string_show_fixed2_max; [exact Hq|].
  unfold prec, max_emax in *. lia.
Qed.

(** ** C3: per-row contributions in the CSV report *)




(** ** C10: the displayed total *)

(** C10: the total is displayed with [f"{total:.2f}"], which rounds
    half-even to two places; for the total [0.125] both the JSON
    [total_deposits] and the CSV TOTAL row show "0.12", where round-half-up
    gives "0.13". *)
Theorem C10_display_half_even :
  (forall s c e, format_2f (Fin s c e) = show_fixed2 s (rescale ROUND_HALF_EVEN c e (-2)))
  /\ total (run_loop september init_state (iter_csv_rows tie_rows)) = Fin false 125 (-3)
  /\ match tithing (fixed_reader tie_rows) "x" "2025-09-01" "2025-09-30" "MILLWORK DEV PAYROLL"
             (Fin false 1 (-1)) 10 true FmtJson with
     | Ok (JSONResponse j) => total_deposits j = "0.12"
     | _ => False
     end
  /\ match tithing (fixed_reader tie_rows) "x" "2025-09-01" "2025-09-30" "MILLWORK DEV PAYROLL"
             (Fin false 1 (-1)) 10 true FmtCsv with
     | Ok (CSVResponse lines) => last lines [] = ["TOTAL"; "0.12"; ""; "0.01"]
     | _ => False
     end
  /\ show_fixed2 false (rescale ROUND_HALF_UP 125 (-3) (-2)) = "0.13".
Proof.
  split; [reflexivity|].
  vm_compute. repeat split.
Qed.

(** * Further properties of the code *)

(** ** Dates: [strptime], [parse_date] and [isoformat] *)

Lemma strptime_valid : forall s f d, strptime s f = Ok d ->
  1 <= year d <= 9999 /\ 1 <= month d <= 12 /\ 1 <= day d <= days_in_month (year d) (month d).
Proof.
  intros s f d H. unfold strptime in H.
  destruct (match_fmt f s []) as [[acc [|c r]]|]; try discriminate H.
  cbv zeta in H.
  match type of H with (if ?b then _ else _) = _ => destruct b eqn:E end; [|discriminate H].
  inversion H; subst d; clear H. cbn [year month day].
  rewrite !andb_true_iff, !Z.leb_le in E. lia.
Qed.

Lemma days_in_month_le : forall y m, days_in_month y m <= 31.
Proof.
  intros y m. unfold days_in_month.
  repeat match goal with |- context [if ?b then _ else _] => destruct b end; lia.
Qed.

Lemma lstrip_nonspace : forall s, str_all nonspace s = true -> PyStr.lstrip s = s.
Proof.
  intros [|c s] H; [reflexivity|].
  cbn [str_all] in H. apply andb_prop in H as [Hc _].
  unfold nonspace in Hc. apply negb_true_iff in Hc.
  cbn [PyStr.lstrip]. rewrite Hc. reflexivity.
Qed.

Lemma rstrip_nonspace : forall s, str_all nonspace s = true -> PyStr.rstrip s = s.
Proof.
  induction s as [|c s IH]; intros H; [reflexivity|].
  cbn [str_all] in H. apply andb_prop in H as [Hc Hs].
  unfold nonspace in Hc. apply negb_true_iff in Hc.
  cbn [PyStr.rstrip]. rewrite (IH Hs).
  destruct s; [rewrite Hc|]; reflexivity.
Qed.

Lemma strip_nonspace : forall s, str_all nonspace s = true -> PyStr.strip s = s.
Proof. intros s H. unfold PyStr.strip. rewrite lstrip_nonspace, rstrip_nonspace; auto. Qed.

Lemma all_digits_nonspace : forall s, PyStr.all_digits s = true -> str_all nonspace s = true.
Proof.
  induction s as [|c s IH]; intros H; [reflexivity|].
  cbn [PyStr.all_digits] in H. apply andb_prop in H as [Hc Hs].
  cbn [str_all]. rewrite (IH Hs), andb_true_r.
  destruct (digit_cases c Hc) as [->|[->|[->|[->|[->|[->|[->|[->|[->| ->]]]]]]]]]; reflexivity.
Qed.

Lemma all_digits_zeros : forall k, PyStr.all_digits (String.concat "" (repeat "0" k)) = true.
Proof.
  induction k as [|k IH]; [reflexivity|]. destruct k as [|k]; [reflexivity|].
  change (String.concat "" (repeat "0" (S (S k))))
    with (String "0" (String.concat "" (repeat "0" (S k)))).
  cbn [PyStr.all_digits]. rewrite IH. reflexivity.
Qed.

Lemma zero_pad_digits : forall w s, PyStr.all_digits s = true ->
  PyStr.all_digits (PyStr.zero_pad w s) = true.
Proof.
  intros w s H. unfold PyStr.zero_pad. rewrite all_digits_app, all_digits_zeros, H. reflexivity.
Qed.

Lemma two_digits_ok : forall (pad : bool) v, 0 <= v ->
  PyStr.all_digits (if pad then PyStr.zero_pad 2 (PyStr.show_nat v) else PyStr.show_nat v) = true.
Proof.
  intros [|] v Hv; [apply zero_pad_digits|]; exact (proj1 (proj2 (show_nat_spec v Hv))).
Qed.

Lemma mdy_nonspace : forall pad y m d, 0 <= y -> 0 <= m -> 0 <= d ->
  str_all nonspace (mdy_string pad y m d) = true.
Proof.
  intros pad y m d Hy Hm Hd. unfold mdy_string. cbv zeta.
  rewrite !str_all_app.
  rewrite (all_digits_nonspace _ (two_digits_ok pad m Hm)),
    (all_digits_nonspace _ (two_digits_ok pad d Hd)),
    (all_digits_nonspace _ (zero_pad_digits 4 _ (proj1 (proj2 (show_nat_spec y Hy))))).
  reflexivity.
Qed.

Lemma alts_year : forall y rest, 0 <= y <= 9999 ->
  alts DirY (append (PyStr.zero_pad 4 (PyStr.show_nat y)) rest) = [(y, rest)].
Proof.
  intros y rest Hy.
  assert (Hin : In (Z.to_nat y) (seq 0 (Z.to_nat 10000))) by (apply in_seq; lia).
  assert (Hall : forallb year4_ok (seq 0 (Z.to_nat 10000)) = true) by (vm_compute; reflexivity).
  pose proof (proj1 (forallb_forall _ _) Hall _ Hin) as H.
  unfold year4_ok in H. rewrite Z2Nat.id in H by lia.
  destruct (PyStr.zero_pad 4 (PyStr.show_nat y)) as [|a [|b [|c [|e [|x r]]]]]; try discriminate H.
  apply andb_prop in H as [Hd Hv]. apply Z.eqb_eq in Hv.
  cbn [append alts]. rewrite Hd, Hv. reflexivity.
Qed.

Lemma alts_two : forall d v rest,
  (d = Dirm /\ 1 <= v <= 12) \/ (d = Dird /\ 1 <= v <= 31) ->
  match alts d (append (PyStr.zero_pad 2 (PyStr.show_nat v)) rest) with
  | (v', r') :: _ => v' = v /\ r' = rest
  | [] => False
  end.
Proof.
  intros d v rest H.
  assert (Hb : 0 <= v) by (destruct H as [[_ ?]|[_ ?]]; lia).
  rewrite <- (Z2Nat.id v Hb) in H |- *. remember (Z.to_nat v) as k eqn:Ek. clear Ek Hb v.
  destruct H as [[-> H]|[-> H]];
    do 32 (destruct k as [|k]; [first [lia | vm_compute; split; reflexivity] |]); lia.
Qed.

Lemma alts_two_slash : forall (pad : bool) d v t,
  (d = Dirm /\ 1 <= v <= 12) \/ (d = Dird /\ 1 <= v <= 31) ->
  match alts d (append (if pad then PyStr.zero_pad 2 (PyStr.show_nat v) else PyStr.show_nat v)
                  (append "/" t)) with
  | (v', r') :: _ => v' = v /\ r' = append "/" t
  | [] => False
  end.
Proof.
  intros [|] d v t H; [apply alts_two; exact H|].
  assert (Hb : 0 <= v) by (destruct H as [[_ ?]|[_ ?]]; lia).
  rewrite <- (Z2Nat.id v Hb) in H |- *. remember (Z.to_nat v) as k eqn:Ek. clear Ek Hb v.
  destruct H as [[-> H]|[-> H]];
    do 32 (destruct k as [|k]; [first [lia | vm_compute; split; reflexivity] |]); lia.
Qed.

Lemma match_fmt_dir : forall d f s acc v rest,
  match alts d s with (v', r') :: _ => v' = v /\ r' = rest | [] => False end ->
  forall x, match_fmt f rest ((d, v) :: acc) = Some x -> match_fmt (Dir d :: f) s acc = Some x.
Proof.
  intros d f s acc v rest H x Hx. cbn [match_fmt].
  destruct (alts d s) as [|[v' r'] l]; [contradiction|].
  destruct H as [-> ->]. cbn [first_some fst snd]. rewrite Hx. reflexivity.
Qed.

Lemma match_fmt_lit : forall c f s acc,
  match_fmt (Lit c :: f) (append (String c EmptyString) s) acc = match_fmt f s acc.
Proof. intros c f s acc. cbn [match_fmt append]. rewrite Ascii.eqb_refl. reflexivity. Qed.

Lemma iso_round_trip : forall d,
  1 <= year d <= 9999 -> 1 <= month d <= 12 -> 1 <= day d <= days_in_month (year d) (month d) ->
  strptime (isoformat d) ISO_FMT = Ok d.
Proof.
  intros [y m dd] Hy Hm Hd. cbn [year month day] in *.
  pose proof (days_in_month_le y m) as Hdim.
  assert (HM : match_fmt ISO_FMT (isoformat (mkdate y m dd)) []
               = Some ([(Dird, dd); (Dirm, m); (DirY, y)], EmptyString)).
  { unfold isoformat, ISO_FMT. cbn [year month day].
    eapply match_fmt_dir; [rewrite alts_year by lia; exact (conj eq_refl eq_refl)|].
    rewrite match_fmt_lit.
    eapply match_fmt_dir; [apply alts_two; left; split; [reflexivity|lia]|].
    rewrite match_fmt_lit.
    eapply match_fmt_dir;
      [rewrite <- (append_empty (PyStr.zero_pad 2 (PyStr.show_nat dd)));
       apply alts_two; right; split; [reflexivity|lia]|].
    reflexivity. }
  unfold strptime. rewrite HM. cbv beta iota zeta. cbn [lookup_dir directive_eqb].
  assert (Hb : (1 <=? y) && (y <=? 9999) && (1 <=? m) && (m <=? 12) && (1 <=? dd)
               && (dd <=? days_in_month y m) = true)
    by (rewrite !andb_true_iff, !Z.leb_le; lia).
  rewrite Hb. reflexivity.
Qed.

(** ** [iter_csv_rows] *)

Lemma enumerate_in : forall {A} (l : list A) k n x,
  In (n, x) (enumerate k l) <-> k <= n /\ nth_error l (Z.to_nat (n - k)) = Some x.
Proof.
  intros A l. induction l as [|y l IH]; intros k n x.
  - cbn. split; [tauto|]. intros [_ H]. destruct (Z.to_nat (n - k)); discriminate H.
  - cbn [enumerate In]. rewrite IH. split.
    + intros [Heq|[Hle Hn]].
      * inversion Heq; subst. rewrite Z.sub_diag. split; [lia|reflexivity].
      * split; [lia|]. replace (Z.to_nat (n - k)) with (S (Z.to_nat (n - (k + 1)))) by lia.
        exact Hn.
    + intros [Hle Hn]. destruct (Z.eq_dec n k) as [->|Hne].
      * left. rewrite Z.sub_diag in Hn. cbn in Hn. congruence.
      * right. split; [lia|].
        replace (Z.to_nat (n - k)) with (S (Z.to_nat (n - (k + 1)))) in Hn by lia. exact Hn.
Qed.

Lemma pad_row_spec : forall r, (5 <= length (pad_row r))%nat /\ firstn (length r) (pad_row r) = r.
Proof.
  intros r. unfold pad_row. destruct (length r <? 5)%nat eqn:E.
  - apply Nat.ltb_lt in E.
    rewrite length_app, repeat_length, firstn_app, Nat.sub_diag, firstn_all.
    cbn [firstn]. rewrite app_nil_r. split; [lia|reflexivity].
  - apply Nat.ltb_ge in E. rewrite firstn_all. split; [lia|reflexivity].
Qed.

Lemma iter_csv_rows_in : forall reader n r,
  In (n, r) (iter_csv_rows reader) <->
  exists r0, 1 <= n /\ nth_error reader (Z.to_nat (n - 1)) = Some r0 /\ r0 <> [] /\ r = pad_row r0.
Proof.
  intros reader n r. unfold iter_csv_rows. rewrite in_flat_map. split.
  - intros [[k r0] [Hin Hr]]. apply enumerate_in in Hin as [Hk Hn].
    cbn [snd fst] in Hr. destruct r0 as [|f r0']; [contradiction|].
    destruct Hr as [Heq|[]]. inversion Heq; subst.
    exists (f :: r0'). repeat split; auto; discriminate.
  - intros (r0 & Hn & Hnth & Hne & ->). exists (n, r0). split.
    + apply enumerate_in. auto.
    + cbn [snd fst]. destruct r0; [congruence|]. left. reflexivity.
Qed.

Lemma flat_map_enumerate_sorted : forall (g : Z * list string -> list (Z * list string)),
  (forall p, map fst (g p) = [] \/ map fst (g p) = [fst p]) ->
  forall l k, StronglySorted Z.lt (map fst (flat_map g (enumerate k l)))
              /\ Forall (fun n => k <= n) (map fst (flat_map g (enumerate k l))).
Proof.
  intros g Hg l. induction l as [|x l IH]; intros k.
  - split; constructor.
  - cbn [enumerate flat_map]. rewrite map_app. destruct (IH (k + 1)) as [Hs Hf].
    destruct (Hg (k, x)) as [-> | ->]; cbn [app fst].
    + split; [exact Hs|]. eapply Forall_impl; [|exact Hf]. intros a Ha; simpl in *; lia.
    + split.
      * constructor; [exact Hs|]. eapply Forall_impl; [|exact Hf]. intros a Ha; simpl in *; lia.
      * constructor; [lia|]. eapply Forall_impl; [|exact Hf]. intros a Ha; simpl in *; lia.
Qed.

Lemma iter_csv_rows_sorted : forall reader, StronglySorted Z.lt (map fst (iter_csv_rows reader)).
Proof.
  intros reader. unfold iter_csv_rows. apply flat_map_enumerate_sorted.
  intros [k r]. destruct r; cbn; auto.
Qed.

(** ** Order of the diagnostics *)

Lemma sorted_remove_middle : forall (l1 l2 : list Z) x,
  StronglySorted Z.lt (l1 ++ x :: l2) -> StronglySorted Z.lt (l1 ++ l2).
Proof.
  induction l1 as [|a l1 IH]; intros l2 x H; cbn [app] in *.
  - apply StronglySorted_inv in H. tauto.
  - apply StronglySorted_inv in H as [Hs Hf]. constructor; [eapply IH; exact Hs|].
    rewrite Forall_app in *. destruct Hf as [Hf1 Hf2]. split; [exact Hf1|].
    inversion Hf2; assumption.
Qed.

Lemma step_errors_cases : forall cfg st n row,
  errors (step cfg st (n, row)) = errors st
  \/ exists e, errors (step cfg st (n, row)) = (errors st ++ [(n, e)])%list.
Proof.
  intros cfg st n row. unfold step.
  destruct (row_body cfg st n row) as [[st'|]|e] eqn:H.
  - left. destruct (row_body_shape _ _ _ _ _ H) as [->|(a & m & t & _ & _ & ->)]; reflexivity.
  - left. reflexivity.
  - right. exists e. reflexivity.
Qed.

Lemma run_loop_errors_sorted : forall cfg rows st,
  StronglySorted Z.lt (map fst (errors st) ++ map fst rows) ->
  StronglySorted Z.lt (map fst (errors (run_loop cfg st rows)))
  /\ incl (map fst (errors (run_loop cfg st rows))) (map fst (errors st) ++ map fst rows).
Proof.
  intros cfg rows. induction rows as [|[n row] rows IH]; intros st H.
  - unfold run_loop. cbn [fold_left map]. rewrite app_nil_r in *.
    split; [exact H|apply incl_refl].
  - rewrite run_loop_cons. cbn [map fst] in H.
    destruct (step_errors_cases cfg st n row) as [He|[e He]].
    + destruct (IH (step cfg st (n, row))) as [Hs Hi].
      { rewrite He. eapply sorted_remove_middle. exact H. }
      split; [exact Hs|]. intros z Hz. apply Hi in Hz. rewrite He in Hz.
      cbn [map fst]. rewrite in_app_iff in *. cbn [In]. tauto.
    + destruct (IH (step cfg st (n, row))) as [Hs Hi].
      { rewrite He, map_app, <- app_assoc. exact H. }
      split; [exact Hs|]. intros z Hz. apply Hi in Hz.
      rewrite He, map_app, <- app_assoc in Hz. exact Hz.
Qed.

(** ** The running total *)

Lemma dec_fix_sign : forall s c e t, dec_fix s c e = Ok t -> exists c' e', t = Fin s c' e'.
Proof.
  intros s c e t H. unfold dec_fix in H.
  destruct (c =? 0); [inversion H; eauto|].
  destruct (etop <? _); [discriminate H|].
  destruct (e <? _); [|inversion H; eauto].
  destruct (if prec <? _ then _ else _) as [coeff exp_min].
  destruct (etop <? exp_min); [discriminate H|inversion H; eauto].
Qed.

Lemma add_nonneg : forall a b t,
  sign_nonneg a = true -> le_zero b = Ok false -> add a b = Ok t -> sign_nonneg t = true.
Proof.
  intros a b t Ha Hb H.
  destruct b as [sb cb eb|sb|sig]; simpl in Hb; inversion Hb as [Hb'].
  - apply orb_false_iff in Hb' as [-> _].
    destruct a as [[|] ca ea|[|]|sig]; simpl in Ha; try discriminate Ha.
    + assert (Hf : exists c e, add (Fin false ca ea) (Fin false cb eb) = dec_fix false c e).
      { unfold add. destruct (normalize ca ea cb eb) as [[i1 i2] x].
        repeat match goal with |- context [if ?b then _ else _] => destruct b end; eauto. }
      destruct Hf as (c & e & Hf). rewrite Hf in H.
      destruct (dec_fix_sign _ _ _ _ H) as (c' & e' & ->). reflexivity.
    + simpl in H. inversion H. reflexivity.
  - subst sb. destruct a as [[|] ca ea|[|]|sig]; simpl in Ha; try discriminate Ha;
      simpl in H; inversion H; reflexivity.
Qed.

Lemma step_nonneg : forall cfg st r,
  sign_nonneg (total st) = true -> sign_nonneg (total (step cfg st r)) = true.
Proof.
  intros cfg st [n row] Hok. unfold step.
  destruct (row_body cfg st n row) as [[st'|]|e] eqn:H; try exact Hok.
  destruct (row_body_shape _ _ _ _ _ H) as [->|(a & m & t & Hz & Ht & ->)]; [exact Hok|].
  exact (add_nonneg _ _ _ Hok Hz Ht).
Qed.

Lemma run_loop_nonneg : forall cfg rows st,
  sign_nonneg (total st) = true -> sign_nonneg (total (run_loop cfg st rows)) = true.
Proof.
  intros cfg rows. induction rows as [|r rows IH]; intros st H; [exact H|].
  rewrite run_loop_cons. apply IH, step_nonneg, H.
Qed.

Lemma show_nat_aux_head : forall f n acc, exists c r,
  PyStr.show_nat_aux (S f) n acc = String c r /\ PyStr.isdigit c = true.
Proof.
  induction f as [|f IH]; intros n acc; rewrite show_nat_aux_S;
    assert (Hm : 0 <= n mod 10 < 10) by (apply Z.mod_pos_bound; lia);
    destruct (digit_char _ Hm) as [Hd _];
    destruct (n <? 10); try (eexists _, _; split; [reflexivity|exact Hd]).
  apply IH.
Qed.

Lemma show_nat_head : forall n, exists c r, PyStr.show_nat n = String c r /\ PyStr.isdigit c = true.
Proof. intros n. apply show_nat_aux_head. Qed.

Lemma format_2f_no_minus : forall t, sign_nonneg t = true -> PyStr.startswith (format_2f t) "-" = false.
Proof.
  intros [[|] c e|[|]|sig] H; try discriminate H; [|reflexivity].
  unfold format_2f, show_fixed2. cbn [append].
  destruct (show_nat_head (rescale ROUND_HALF_EVEN c e (-2) / 100)) as (ch & r & -> & Hd).
  cbn [append PyStr.startswith].
  destruct (digit_cases ch Hd) as [->|[->|[->|[->|[->|[->|[->|[->|[->| ->]]]]]]]]]; reflexivity.
Qed.

Lemma step_matches_total : forall cfg st r,
  (length (matches st) <= length (matches (step cfg st r)))%nat
  /\ (length (matches (step cfg st r)) = length (matches st) -> total (step cfg st r) = total st).
Proof.
  intros cfg st [n row]. unfold step.
  destruct (row_body cfg st n row) as [[st'|]|e] eqn:H; [|split; auto..].
  destruct (row_body_shape _ _ _ _ _ H) as [->|(a & m & t & Hz & Ht & ->)]; [split; auto|].
  cbn [matches total]. rewrite length_app. cbn [length].
  split; [lia|intros Hl; exfalso; lia].
Qed.

Lemma run_loop_no_new_match : forall cfg rows st,
  (length (matches st) <= length (matches (run_loop cfg st rows)))%nat
  /\ (length (matches (run_loop cfg st rows)) = length (matches st)
      -> total (run_loop cfg st rows) = total st).
Proof.
  intros cfg rows. induction rows as [|r rows IH]; intros st; [split; auto|].
  rewrite run_loop_cons. destruct (step_matches_total cfg st r) as [H1 H2].
  destruct (IH (step cfg st r)) as [H3 H4]. split; [lia|].
  intros Hl. rewrite H4 by lia. apply H2. lia.
Qed.

Lemma add_inf_positive : forall a, le_zero a = Ok false -> add (Inf false) a = Ok (Inf false).
Proof. intros [s c e|[|]|sig] H; simpl in H; inversion H; reflexivity. Qed.

Lemma step_keeps_inf : forall cfg st r, total st = Inf false -> total (step cfg st r) = Inf false.
Proof.
  intros cfg st [n row] Hi. unfold step.
  destruct (row_body cfg st n row) as [[st'|]|e] eqn:H; try exact Hi.
  destruct (row_body_shape _ _ _ _ _ H) as [->|(a & m & t & Hz & Ht & ->)]; [exact Hi|].
  rewrite Hi, (add_inf_positive a Hz) in Ht. inversion Ht. reflexivity.
Qed.

Lemma run_loop_keeps_inf : forall cfg rows st,
  total st = Inf false -> total (run_loop cfg st rows) = Inf false.
Proof.
  intros cfg rows. induction rows as [|r rows IH]; intros st H; [exact H|].
  rewrite run_loop_cons. apply IH, step_keeps_inf, H.
Qed.

Lemma run_loop_reaches_inf : forall cfg rows st n row d,
  total_ok (total st) -> In (n, row) rows ->
  parse_date (field row 0) = Ok d ->
  Date.le (start_date cfg) d && Date.le d (end_date cfg) = true ->
  parse_decimal (Some (field row 1)) = Ok (Inf false) ->
  PyStr.contains (if case_insensitive cfg then PyStr.lower (PyStr.strip (field row 4))
                  else PyStr.strip (field row 4)) (needle cfg) = true ->
  total (run_loop cfg st rows) = Inf false.
Proof.
  intros cfg rows. induction rows as [|[n0 row0] rows IH];
    intros st n row d Hok Hin Hd Hr Ha Hc; [destruct Hin|].
  rewrite run_loop_cons. destruct Hin as [Heq|Hin].
  - inversion Heq; subst n0 row0. apply run_loop_keeps_inf.
    rewrite (step_aggregate cfg st n row d (Inf false) Hd Hr Ha eq_refl Hc).
    destruct (total st) as [s c e|[|]|sig]; simpl in Hok; try contradiction; reflexivity.
  - eapply IH; [apply step_total_ok, Hok | exact Hin | exact Hd | exact Hr | exact Ha | exact Hc].
Qed.

(** ** [compute_tithe] *)

Lemma quantize2_fin : forall rnd s c e x, quantize2 rnd (Fin s c e) = Ok x -> exists q, x = Fin s q (-2).
Proof.
  intros rnd s c e x H. unfold quantize2 in H.
  destruct (c =? 0). { vm_compute in H. inversion H. eauto. }
  cbv zeta in H.
  destruct (emax <? _); [discriminate H|]. destruct (prec <? _); [discriminate H|].
  destruct (emax <? ndigits (rescale rnd c e (-2)) + -2 - 1); [discriminate H|].
  destruct (prec <? ndigits (rescale rnd c e (-2))) eqn:Hp; [discriminate H|].
  apply Z.ltb_ge in Hp. set (q := rescale rnd c e (-2)) in *.
  unfold dec_fix in H. destruct (q =? 0); [inversion H; eauto|].
  cbv zeta in H.
  destruct (etop <? ndigits q + -2 - prec) eqn:E1;
    [apply Z.ltb_lt in E1; unfold etop, emax, prec in *; lia|].
  destruct (-2 <? Z.max (ndigits q + -2 - prec) etiny) eqn:E2;
    [apply Z.ltb_lt in E2; unfold etiny, emin, prec in *; lia|].
  inversion H. eauto.
Qed.

Lemma compute_tithe_fin : forall s1 c1 e1 s2 c2 e2 x,
  compute_tithe (Fin s1 c1 e1) (Fin s2 c2 e2) = Ok x -> exists q, x = Fin (xorb s1 s2) q (-2).
Proof.
  intros s1 c1 e1 s2 c2 e2 x H. unfold compute_tithe, bind, mul in H. cbv beta iota in H.
  destruct (dec_fix (xorb s1 s2) (c1 * c2) (e1 + e2)) as [p|e] eqn:Hp; [|discriminate H].
  destruct (dec_fix_sign _ _ _ _ Hp) as (c' & e' & ->).
  exact (quantize2_fin _ _ _ _ _ H).
Qed.

Lemma format_2f_exact : forall s q, format_2f (Fin s q (-2)) = show_fixed2 s q.
Proof. intros s q. unfold format_2f, rescale. cbn -[show_fixed2]. rewrite Z.mul_1_r. reflexivity. Qed.

(** ** The CSV report *)

Lemma map_res_forall2 : forall {A B} (f : A -> res B) l l',
  map_res f l = Ok l' -> Forall2 (fun x y => f x = Ok y) l l'.
Proof.
  intros A B f l. induction l as [|x l IH]; intros l' H.
  - inversion H. constructor.
  - cbn [map_res] in H. unfold bind in H.
    destruct (f x) as [y|e] eqn:Hf; [|discriminate H].
    destruct (map_res f l) as [ys|e] eqn:Hl; [|discriminate H].
    inversion H. constructor; auto.
Qed.

Lemma last_two : forall {A} (h x t : A) l d, last (h :: l ++ [x; t]) d = t.
Proof.
  intros A h x t l d. rewrite app_comm_cons.
  change [x; t] with ([x] ++ [t]). rewrite app_assoc, last_last. reflexivity.
Qed.

Lemma csv_lines_fields : forall rate ms ls,
  Forall2 (fun x y => csv_match_line rate x = Ok y) ms ls ->
  map (fun l => (nth 0 l "", nth 2 l "")) ls = map (fun m => (m_date m, m_description m)) ms.
Proof.
  intros rate ms ls H. induction H as [|m l ms ls Hm _ IH]; [reflexivity|].
  cbn [map]. rewrite IH. unfold csv_match_line, bind in Hm.
  destruct (decimal_of (m_amount m)) as [amt|e]; [|discriminate Hm].
  destruct (compute_tithe amt rate) as [per|e]; [|discriminate Hm].
  inversion Hm. reflexivity.
Qed.

(** ** [parse_decimal] on the amounts the report prints *)

Lemma fixed_char_comma : forall c, fixed_char c = true -> Ascii.eqb "," c = false /\ nonspace c = true.
Proof.
  intros [[] [] [] [] [] [] [] []] H; vm_compute in H; try discriminate H;
    vm_compute; split; reflexivity.
Qed.

Lemma remove_comma_id : forall s, str_all fixed_char s = true -> PyStr.remove_char "," s = s.
Proof.
  induction s as [|c s IH]; intros H; [reflexivity|].
  cbn [str_all] in H. apply andb_prop in H as [Hc Hs].
  cbn [PyStr.remove_char]. rewrite (proj1 (fixed_char_comma c Hc)), (IH Hs). reflexivity.
Qed.

Lemma fixed_nonspace : forall s, str_all fixed_char s = true -> str_all nonspace s = true.
Proof.
  induction s as [|c s IH]; intros H; [reflexivity|].
  cbn [str_all] in *. apply andb_prop in H as [Hc Hs].
  rewrite (proj2 (fixed_char_comma c Hc)), (IH Hs). reflexivity.
Qed.

Lemma show_fixed2_chars : forall s q, 0 <= q -> str_all fixed_char (show_fixed2 s q) = true.
Proof.
  intros s q Hq. unfold show_fixed2. rewrite !str_all_app.
  assert (H1 : 0 <= q / 100) by (apply Z.div_pos; lia).
  assert (H2 : 0 <= q mod 100 < 100) by (apply Z.mod_pos_bound; lia).
  rewrite (all_digits_str_all _ (proj1 (proj2 (show_nat_spec (q / 100) H1)))).
  rewrite (all_digits_str_all _ (proj1 (zero_pad2_spec (q mod 100) H2))).
  destruct s; reflexivity.
Qed.

Lemma show_fixed2_head : forall s q, exists c r, show_fixed2 s q = String c r /\ Ascii.eqb c "+" = false.
Proof.
  intros [|] q; unfold show_fixed2; cbn [append].
  - eexists _, _. split; reflexivity.
  - destruct (show_nat_head (q / 100)) as (c & r & -> & Hd). cbn [append].
    eexists _, _. split; [reflexivity|].
    destruct (digit_cases c Hd) as [->|[->|[->|[->|[->|[->|[->|[->|[->| ->]]]]]]]]]; reflexivity.
Qed.

Lemma plus_prefix_other : forall c r, Ascii.eqb c "+" = false ->
  match String c r with String "+" r' => r' | _ => String c r end = String c r.
Proof. intros [[] [] [] [] [] [] [] []] r H; try reflexivity; discriminate H. Qed.

(** ** Extra properties *)

(** X2: [parse_date] reads [M/D/YYYY], with month and day zero-padded
    or not: for a month 1-12 and a day 1-31 it gives that date when the
    day exists in the month, and the 400 "Invalid date value" otherwise. *)
Theorem parse_date_mdy : forall pad y m d,
  1 <= y <= 9999 -> 1 <= m <= 12 -> 1 <= d <= 31 ->
  parse_date (mdy_string pad y m d)
  = if d <=? days_in_month y m then Ok (mkdate y m d)
    else Raise (HTTPException 400 (InvalidDateValue (mdy_string pad y m d))).
Proof.
  intros pad y m d Hy Hm Hd. unfold parse_date.
  rewrite (strip_nonspace _ (mdy_nonspace pad y m d ltac:(lia) ltac:(lia) ltac:(lia))).
  assert (HM : match_fmt DATE_FMT (mdy_string pad y m d) []
               = Some ([(DirY, y); (Dird, d); (Dirm, m)], EmptyString)).
  { unfold mdy_string, DATE_FMT. cbv zeta.
    eapply match_fmt_dir; [apply alts_two_slash; left; split; [reflexivity|lia]|].
    rewrite match_fmt_lit.
    eapply match_fmt_dir; [apply alts_two_slash; right; split; [reflexivity|lia]|].
    rewrite match_fmt_lit.
    eapply match_fmt_dir;
      [rewrite <- (append_empty (PyStr.zero_pad 4 (PyStr.show_nat y))), alts_year by lia;
       exact (conj eq_refl eq_refl)|].
    reflexivity. }
  unfold strptime. rewrite HM. cbv beta iota zeta. cbn [lookup_dir directive_eqb].
  assert (Hb : (1 <=? y) && (y <=? 9999) && (1 <=? m) && (m <=? 12) && (1 <=? d) = true)
    by (rewrite !andb_true_iff, !Z.leb_le; lia).
  rewrite Hb. cbn [andb]. destruct (d <=? days_in_month y m); reflexivity.
Qed.

Lemma parse_date_mdy_witness :
  parse_date (mdy_string false 2025 2 29)
  = if 29 <=? days_in_month 2025 2 then Ok (mkdate 2025 2 29)
    else Raise (HTTPException 400 (InvalidDateValue (mdy_string false 2025 2 29))).
Proof. exact (parse_date_mdy false 2025 2 29 ltac:(lia) ltac:(lia) ltac:(lia)). Defined.

(** X3: [strptime(d.isoformat(), "%Y-%m-%d")] gives back [d] for every
    valid date. *)
Theorem isoformat_strptime_round_trip : forall d,
  1 <= year d <= 9999 -> 1 <= month d <= 12 -> 1 <= day d <= days_in_month (year d) (month d) ->
  strptime (isoformat d) ISO_FMT = Ok d.
Proof. intros d Hy Hm Hd. exact (iso_round_trip d Hy Hm Hd). Qed.

Lemma isoformat_strptime_round_trip_witness :
  strptime (isoformat (mkdate 2024 2 29)) ISO_FMT = Ok (mkdate 2024 2 29).
Proof.
  apply (isoformat_strptime_round_trip (mkdate 2024 2 29));
    unfold days_in_month, is_leap; cbn; lia.
Defined.

(** X4: the filters of a JSON response echo the request: [start] and
    [end] re-parse to the dates the request's strings parsed to, and
    [desc_contains] and [case_insensitive] are the request's values. *)
Theorem json_filters_reparse : forall reader data start end_ desc rate pct ci j,
  tithing reader data start end_ desc rate pct ci FmtJson = Ok (JSONResponse j) ->
  strptime (f_start j) ISO_FMT = strptime start ISO_FMT
  /\ strptime (f_end j) ISO_FMT = strptime end_ ISO_FMT
  /\ f_desc_contains j = desc /\ f_case_insensitive j = ci.
Proof.
  intros reader data start end_ desc rate pct ci j H. unfold tithing in H.
  destruct (strptime start ISO_FMT) as [sd|e] eqn:Hs, (strptime end_ ISO_FMT) as [ed|e'] eqn:He;
    try discriminate H.
  destruct (Date.lt ed sd); [discriminate H|].
  destruct data as [|c0 data0]; [discriminate H|]. cbv zeta in H. unfold bind in H.
  destruct (compute_tithe _ rate) as [t|e]; [|discriminate H].
  inversion H; subst j; clear H. cbn [f_start f_end f_desc_contains f_case_insensitive].
  destruct (strptime_valid _ _ _ Hs) as (H1 & H2 & H3).
  destruct (strptime_valid _ _ _ He) as (H4 & H5 & H6).
  rewrite !iso_round_trip by assumption. auto.
Qed.

Lemma json_filters_reparse_witness :
  strptime "2025-09-01" ISO_FMT = strptime "2025-9-1" ISO_FMT
  /\ strptime "2025-09-30" ISO_FMT = strptime "2025-09-30" ISO_FMT
  /\ "MILLWORK DEV PAYROLL" = "MILLWORK DEV PAYROLL" /\ true = true.
Proof.
  exact (json_filters_reparse (fixed_reader spec_rows) "x" "2025-9-1" "2025-09-30"
           "MILLWORK DEV PAYROLL" (Fin false 1 (-1)) 10 true
           (mkjson "2025-09-01" "2025-09-30" "MILLWORK DEV PAYROLL" true 1 "1500.00" "150.00"
              [mkmatch "2025-09-15" "1500.00" "MILLWORK DEV PAYROLL #123"] [])
           ltac:(vm_compute; reflexivity)).
Defined.

(** X5: [iter_csv_rows] yields, with its 1-based line number, each
    non-empty row of the reader, padded with "" to at least 5 fields and
    keeping its own fields first; line numbers strictly increase. *)
Theorem iter_csv_rows_spec : forall reader,
  (forall n r, In (n, r) (iter_csv_rows reader) <->
     exists r0, 1 <= n /\ nth_error reader (Z.to_nat (n - 1)) = Some r0 /\ r0 <> []
                /\ r = pad_row r0 /\ (5 <= length r)%nat /\ firstn (length r0) r = r0)
  /\ StronglySorted Z.lt (map fst (iter_csv_rows reader)).
Proof.
  intros reader. split; [|apply iter_csv_rows_sorted].
  intros n r. rewrite iter_csv_rows_in. split.
  - intros (r0 & H1 & H2 & H3 & ->). exists r0. destruct (pad_row_spec r0). auto 7.
  - intros (r0 & H1 & H2 & H3 & H4 & _). exists r0. auto.
Qed.

(** X6: the diagnostics are in line order, at most one per line, and
    each names the line number of a non-empty row of the upload. *)
Theorem errors_in_line_order : forall cfg reader,
  StronglySorted Z.lt (map fst (errors (run_loop cfg init_state (iter_csv_rows reader))))
  /\ incl (map fst (errors (run_loop cfg init_state (iter_csv_rows reader))))
          (map fst (iter_csv_rows reader)).
Proof.
  intros cfg reader.
  exact (run_loop_errors_sorted cfg (iter_csv_rows reader) init_state (iter_csv_rows_sorted reader)).
Qed.

(** X7: the total of the loop is never negative nor NaN, and its display
    [f"{total:.2f}"] never starts with "-". *)
Theorem total_never_negative : forall cfg rs,
  sign_nonneg (total (run_loop cfg init_state rs)) = true
  /\ PyStr.startswith (format_2f (total (run_loop cfg init_state rs))) "-" = false.
Proof.
  intros cfg rs. pose proof (run_loop_nonneg cfg rs init_state eq_refl) as H.
  split; [exact H|]. apply format_2f_no_minus, H.
Qed.

(** X8: a JSON response with no matching row reports count 0, total
    "0.00" and tithe "0.00" for any finite rate of sign 0, and tithe
    "-0.00" for a rate of sign 1 (as [Decimal(str(-0.0))] is). *)
Theorem no_match_zero_report : forall reader data start end_ desc sr cr er pct ci j,
  tithing reader data start end_ desc (Fin sr cr er) pct ci FmtJson = Ok (JSONResponse j) ->
  rows j = [] ->
  count j = 0 /\ total_deposits j = "0.00" /\ tithe j = (if sr then "-0.00" else "0.00").
Proof.
  intros reader data start end_ desc sr cr er pct ci j H Hr. unfold tithing in H.
  destruct (strptime start ISO_FMT) as [sd|e], (strptime end_ ISO_FMT) as [ed|e'];
    try discriminate H.
  destruct (Date.lt ed sd); [discriminate H|].
  destruct data as [|c0 data0]; [discriminate H|]. cbv zeta in H. unfold bind in H.
  match type of H with context [run_loop ?cfg init_state ?rs] =>
    destruct (run_loop_no_new_match cfg rs init_state) as [_ Hz] end.
  destruct (compute_tithe _ (Fin sr cr er)) as [t|e] eqn:Ht; [|discriminate H].
  inversion H; subst j; clear H. cbn [rows] in Hr. cbn [count total_deposits tithe].
  rewrite Hr in *. specialize (Hz eq_refl). rewrite Hz in Ht |- *.
  assert (H0 : compute_tithe (total init_state) (Fin sr cr er) = Ok (Fin sr 0 (-2)))
    by (destruct sr; reflexivity).
  rewrite H0 in Ht. inversion Ht. destruct sr; repeat split; reflexivity.
Qed.

Lemma no_match_zero_report_witness :
  count (mkjson "2025-10-01" "2025-10-31" "MILLWORK DEV PAYROLL" true 0 "0.00" "-0.00" [] []) = 0
  /\ total_deposits (mkjson "2025-10-01" "2025-10-31" "MILLWORK DEV PAYROLL" true 0 "0.00" "-0.00" [] [])
     = "0.00"
  /\ tithe (mkjson "2025-10-01" "2025-10-31" "MILLWORK DEV PAYROLL" true 0 "0.00" "-0.00" [] [])
     = "-0.00".
Proof.
  exact (no_match_zero_report (fixed_reader spec_rows) "x" "2025-10-01" "2025-10-31"
           "MILLWORK DEV PAYROLL" true 0 (-1) 0 true
           (mkjson "2025-10-01" "2025-10-31" "MILLWORK DEV PAYROLL" true 0 "0.00" "-0.00" [] [])
           ltac:(vm_compute; reflexivity) eq_refl).
Defined.

(** X9: for a finite total and rate, a tithe that [compute_tithe]
    returns has exactly two decimal places and the sign of total * rate,
    and [f"{tithe:.2f}"] prints it exactly. *)
Theorem tithe_two_places : forall s1 c1 e1 s2 c2 e2 x,
  compute_tithe (Fin s1 c1 e1) (Fin s2 c2 e2) = Ok x ->
  exists q, x = Fin (xorb s1 s2) q (-2) /\ format_2f x = show_fixed2 (xorb s1 s2) q.
Proof.
  intros s1 c1 e1 s2 c2 e2 x H. destruct (compute_tithe_fin _ _ _ _ _ _ _ H) as [q ->].
  exists q. split; [reflexivity|apply format_2f_exact].
Qed.

Lemma tithe_two_places_witness :
  exists q, Fin false 15000 (-2) = Fin (xorb false false) q (-2)
            /\ format_2f (Fin false 15000 (-2)) = show_fixed2 (xorb false false) q.
Proof.
  exact (tithe_two_places false 150000 (-2) false 1 (-1) (Fin false 15000 (-2))
           ltac:(vm_compute; reflexivity)).
Defined.

(** X10: a row whose date parses and lies within the range and whose
    amount parses to [a] leaves the loop state unchanged (no match, no
    change of total, no diagnostic) when [a <= 0], or when [a > 0] and its
    description does not contain the needle. *)
Theorem nonpositive_or_unmatched_row_ignored : forall cfg st n row d a,
  parse_date (field row 0) = Ok d ->
  Date.le (start_date cfg) d && Date.le d (end_date cfg) = true ->
  parse_decimal (Some (field row 1)) = Ok a ->
  le_zero a = Ok true
  \/ (le_zero a = Ok false
      /\ PyStr.contains (if case_insensitive cfg then PyStr.lower (PyStr.strip (field row 4))
                         else PyStr.strip (field row 4)) (needle cfg) = false) ->
  step cfg st (n, row) = st.
Proof.
  intros cfg st n row d a Hd Hr Ha Hc.
  unfold step, row_body, bind. cbv zeta. rewrite Hd, Hr. simpl negb. cbv iota. rewrite Ha.
  destruct Hc as [Hz|[Hz Hn]]; rewrite Hz; [reflexivity|]. rewrite Hn. reflexivity.
Qed.

Lemma nonpositive_or_unmatched_row_ignored_witness :
  step september init_state (3, ["09/20/2025"; "-200.00"; "*"; ""; "UNRELATED DEBIT"]) = init_state.
Proof.
  exact (nonpositive_or_unmatched_row_ignored september init_state 3
           ["09/20/2025"; "-200.00"; "*"; ""; "UNRELATED DEBIT"] (mkdate 2025 9 20)
           (Fin true 20000 (-2)) ltac:(vm_compute; reflexivity) ltac:(vm_compute; reflexivity)
           ltac:(vm_compute; reflexivity) (or_introl eq_refl)).
Defined.

(** X11: a row dated within the range whose amount is "NaN" or "sNaN"
    gets an [InvalidOperation] diagnostic for its line (the comparison
    [amount <= 0] raises); matches and total are unchanged. *)
Theorem nan_amount_recorded : forall cfg st n row d b,
  parse_date (field row 0) = Ok d ->
  Date.le (start_date cfg) d && Date.le d (end_date cfg) = true ->
  parse_decimal (Some (field row 1)) = Ok (NaN b) ->
  step cfg st (n, row) = mkstate (matches st) (total st) (errors st ++ [(n, InvalidOperation)]).
Proof.
  intros cfg st n row d b Hd Hr Ha.
  unfold step, row_body, bind. cbv zeta. rewrite Hd, Hr. simpl negb. cbv iota. rewrite Ha.
  reflexivity.
Qed.

Lemma nan_amount_recorded_witness :
  step september init_state (2, payroll_row "09/15/2025" "NaN")
  = mkstate [] (Fin false 0 0) [(2, InvalidOperation)].
Proof.
  exact (nan_amount_recorded september init_state 2 (payroll_row "09/15/2025" "NaN")
           (mkdate 2025 9 15) false ltac:(vm_compute; reflexivity) ltac:(vm_compute; reflexivity)
           ltac:(vm_compute; reflexivity)).
Defined.

(** X12: if a row that passes the date, description and positivity
    filters has the amount "Infinity", the total becomes +Infinity and
    the whole request fails with [InvalidOperation], whatever the
    (finite) rate and the output format. *)
Theorem infinite_amount_fails_request :
  forall (reader : string -> list (list string)) data start end_ desc sr cr er pct (ci : bool) fmt
    sd ed n row d,
  strptime start ISO_FMT = Ok sd -> strptime end_ ISO_FMT = Ok ed -> Date.lt ed sd = false ->
  data <> EmptyString ->
  In (n, row) (iter_csv_rows (reader data)) ->
  parse_date (field row 0) = Ok d ->
  Date.le sd d && Date.le d ed = true ->
  parse_decimal (Some (field row 1)) = Ok (Inf false) ->
  PyStr.contains (if ci then PyStr.lower (PyStr.strip (field row 4)) else PyStr.strip (field row 4))
    (if ci then PyStr.lower desc else desc) = true ->
  tithing reader data start end_ desc (Fin sr cr er) pct ci fmt = Raise InvalidOperation.
Proof.
  intros reader data start end_ desc sr cr er pct ci fmt sd ed n row d
    Hs He Hlt Hne Hin Hd Hr Ha Hc.
  unfold tithing. rewrite Hs, He. cbv beta iota zeta. rewrite Hlt.
  destruct data as [|c0 data0]; [congruence|].
  rewrite (run_loop_reaches_inf (mkconfig sd ed (if ci then PyStr.lower desc else desc) ci)
             _ init_state n row d I Hin Hd Hr Ha Hc).
  unfold compute_tithe, bind, mul. destruct (cr =? 0); reflexivity.
Qed.

Lemma infinite_amount_fails_request_witness :
  tithing (fixed_reader [header_row; payroll_row "09/15/2025" "Infinity"]) "x"
    "2025-09-01" "2025-09-30" "MILLWORK DEV PAYROLL" (Fin false 1 (-1)) 10 true FmtJson
  = Raise InvalidOperation.
Proof.
  exact (infinite_amount_fails_request (fixed_reader [header_row; payroll_row "09/15/2025" "Infinity"])
           "x" "2025-09-01" "2025-09-30" "MILLWORK DEV PAYROLL" false 1 (-1) 10 true FmtJson
           (mkdate 2025 9 1) (mkdate 2025 9 30) 2 (payroll_row "09/15/2025" "Infinity")
           (mkdate 2025 9 15) ltac:(vm_compute; reflexivity) ltac:(vm_compute; reflexivity)
           ltac:(vm_compute; reflexivity) ltac:(discriminate)
           ltac:(vm_compute; right; left; reflexivity) ltac:(vm_compute; reflexivity)
           ltac:(vm_compute; reflexivity) ltac:(vm_compute; reflexivity)
           ltac:(vm_compute; reflexivity)).
Defined.

(** X13: when the CSV report is produced, the JSON response for the same
    request is produced too, and the report has the header line
    [date, amount, description, tithe_<pct>pct_per_row], one line per
    JSON row with the same date and description, an empty line, and the
    TOTAL line with the JSON total and tithe. *)
Theorem csv_report_agrees_with_json : forall reader data start end_ desc rate pct ci lines,
  tithing reader data start end_ desc rate pct ci FmtCsv = Ok (CSVResponse lines) ->
  exists j, tithing reader data start end_ desc rate pct ci FmtJson = Ok (JSONResponse j)
    /\ length lines = (length (rows j) + 3)%nat
    /\ hd [] lines = ["date"; "amount"; "description";
                      append "tithe_" (append (PyStr.show_nat pct) "pct_per_row")]
    /\ nth (S (length (rows j))) lines [] = []
    /\ last lines [] = ["TOTAL"; total_deposits j; ""; tithe j]
    /\ map (fun l => (nth 0 l "", nth 2 l "")) (firstn (length (rows j)) (tl lines))
       = map (fun m => (m_date m, m_description m)) (rows j).
Proof.
  intros reader data start end_ desc rate pct ci lines H. unfold tithing in *.
  destruct (strptime start ISO_FMT) as [sd|e], (strptime end_ ISO_FMT) as [ed|e'];
    try discriminate H.
  destruct (Date.lt ed sd); [discriminate H|].
  destruct data as [|c0 data0]; [discriminate H|]. cbv zeta in *. unfold bind in *.
  destruct (compute_tithe _ rate) as [t|e]; [|discriminate H].
  destruct (map_res _ _) as [body|e] eqn:Hb; [|discriminate H].
  inversion H; subst lines; clear H.
  eexists. split; [reflexivity|]. cbn [rows total_deposits tithe].
  pose proof (map_res_forall2 _ _ _ Hb) as Hf.
  pose proof (Forall2_length Hf) as Hl.
  split; [|split; [|split; [|split]]].
  - cbn [length]. rewrite length_app. cbn [length]. lia.
  - reflexivity.
  - cbn [app nth]. rewrite Hl, <- (Nat.add_0_r (length body)), app_nth2_plus. reflexivity.
  - apply last_two.
  - cbn [tl]. rewrite Hl, firstn_app, Nat.sub_diag, firstn_all. cbn [firstn].
    rewrite app_nil_r. exact (csv_lines_fields _ _ _ Hf).
Qed.

Lemma csv_report_agrees_with_json_witness :
  exists j, tithing (fixed_reader spec_rows) "x" "2025-09-01" "2025-09-30" "MILLWORK DEV PAYROLL"
              (Fin false 1 (-1)) 10 true FmtJson = Ok (JSONResponse j)
    /\ length spec_report = (length (rows j) + 3)%nat
    /\ hd [] spec_report = ["date"; "amount"; "description";
                            append "tithe_" (append (PyStr.show_nat 10) "pct_per_row")]
    /\ nth (S (length (rows j))) spec_report [] = []
    /\ last spec_report [] = ["TOTAL"; total_deposits j; ""; tithe j]
    /\ map (fun l => (nth 0 l "", nth 2 l "")) (firstn (length (rows j)) (tl spec_report))
       = map (fun m => (m_date m, m_description m)) (rows j).
Proof.
  exact (csv_report_agrees_with_json (fixed_reader spec_rows) "x" "2025-09-01" "2025-09-30"
           "MILLWORK DEV PAYROLL" (Fin false 1 (-1)) 10 true spec_report
           ltac:(vm_compute; reflexivity)).
Defined.

(** X14: an amount the report prints, [f"{x:.2f}"] of a value with at
    most 28 digits, is read back by [parse_decimal] as exactly that
    value, also with a leading "+". *)
Theorem parse_decimal_display_round_trip : forall s q, 0 <= q -> ndigits q <= prec ->
  parse_decimal (Some (show_fixed2 s q)) = Ok (Fin s q (-2))
  /\ parse_decimal (Some (append "+" (show_fixed2 false q))) = Ok (Fin false q (-2)).
Proof.
  intros s q Hq Hn.
  assert (Hall : forall s, str_all fixed_char (show_fixed2 s q) = true)
    by (intros; apply show_fixed2_chars; exact Hq).
  split.
  - unfold parse_decimal. cbv zeta.
    rewrite (strip_id _ (Hall s)), (remove_comma_id _ (Hall s)).
    destruct (show_fixed2_head s q) as (c & r & Hh & Hc).
    rewrite Hh, (plus_prefix_other c r Hc), <- Hh, of_string_show_fixed2 by assumption.
    reflexivity.
  - unfold parse_decimal. cbv zeta.
    assert (Hp : str_all nonspace (append "+" (show_fixed2 false q)) = true)
      by (cbn [append str_all]; rewrite (fixed_nonspace _ (Hall false)); reflexivity).
    rewrite (strip_nonspace _ Hp).
    change (append "+" (show_fixed2 false q)) with (String "+" (show_fixed2 false q)).
    replace (PyStr.remove_char "," (String "+" (show_fixed2 false q)))
      with (String "+" (PyStr.remove_char "," (show_fixed2 false q))) by reflexivity.
    rewrite (remove_comma_id _ (Hall false)). cbv beta iota.
    rewrite of_string_show_fixed2 by assumption. reflexivity.
Qed.

Lemma parse_decimal_display_round_trip_witness :
  parse_decimal (Some (show_fixed2 false 150000)) = Ok (Fin false 150000 (-2))
  /\ parse_decimal (Some (append "+" (show_fixed2 false 150000))) = Ok (Fin false 150000 (-2)).
Proof.
  exact (parse_decimal_display_round_trip false 150000 ltac:(lia)
           ltac:(vm_compute; intro Hx; discriminate Hx)).
Defined.
